(** * Unicorn Ranch: the simulation engine of [src/gameLogic.js]

    A shallow embedding of the pure functions of the game-logic module and
    the properties of its state-transition engine.

    Numbers.  A JavaScript number is an IEEE 754 binary64 value, and the
    file reads the arithmetic of the source in two ways.

    - The double reading, [Module Double]: binary64 with rounding to
      nearest even, NaN, infinities and signed zeros, on the standard
      library's executable specification [SpecFloat].  It computes what
      the code computes, bit for bit, and it is where rounding, overflow
      and NaN are decided.

    - The exact reading, at top level: the same formulas over the
      rationals ([Q]), with [==] ([Qeq]) for computed values and [=] for a
      value that the code passes through untouched.  It is used for what
      does not depend on rounding: which fields are written, comparisons,
      clamping, order.  Where a statement over [Q] carries a bound on the
      level or on dt, the bound keeps the double computation away from
      overflow; the exact reading does not need it.

    Objects.  An object with a fixed set of keys is a record; an object
    indexed by a computed key ([BASE_DRAIN[needType]], [zoneToNeed[zone]])
    is read through a lookup by string that answers [None] where
    JavaScript answers [undefined].  A zone is [string | null] in the
    source, [option string] here. *)

From Stdlib Require Import QArith Qminmax Lqa String List Bool Znat.
From Stdlib Require Import ZArith Lia SpecFloat.
Import ListNotations.

Open Scope string_scope.
Open Scope Q_scope.

(* ================================================================= *)
(** ** Data model *)

(** [{hunger, thirst, energy, fun}]; [fun] is a keyword, hence [fun_]. *)
Module NeedsVector.
Record t : Set := mk { hunger : Q; thirst : Q; energy : Q; fun_ : Q }.

(** [Object.values(needs)], in the insertion order of the literals. *)
Definition values (n : t) : list Q := [hunger n; thirst n; energy n; fun_ n].

(** [needs[key]] for a key computed at run time. *)
Definition get (key : string) (n : t) : option Q :=
  if String.eqb key "hunger" then Some (hunger n)
  else if String.eqb key "thirst" then Some (thirst n)
  else if String.eqb key "energy" then Some (energy n)
  else if String.eqb key "fun" then Some (fun_ n)
  else None.

Definition set_hunger (n : t) (v : Q) : t := mk v (thirst n) (energy n) (fun_ n).
Definition set_thirst (n : t) (v : Q) : t := mk (hunger n) v (energy n) (fun_ n).
Definition set_energy (n : t) (v : Q) : t := mk (hunger n) (thirst n) v (fun_ n).
Definition set_fun (n : t) (v : Q) : t := mk (hunger n) (thirst n) (energy n) v.
End NeedsVector.

Import NeedsVector(hunger, thirst, energy, fun_).

(** The four need names, to quantify over the keys of a NeedsVector. *)
Inductive Need : Set := Hunger | Thirst | Energy | Fun.

Definition need_name (k : Need) : string :=
  match k with
  | Hunger => "hunger" | Thirst => "thirst" | Energy => "energy" | Fun => "fun"
  end.

Definition need_field (k : Need) (n : NeedsVector.t) : Q :=
  match k with
  | Hunger => hunger n | Thirst => thirst n | Energy => energy n | Fun => fun_ n
  end.

Definition all_needs : list Need := [Hunger; Thirst; Energy; Fun].

Module MonsterState.
Record t : Set := mk { x : Q; y : Q; chomp : bool }.
End MonsterState.

Module GameState.
Record t : Set := mk {
  x : Q;
  y : Q;
  needs : NeedsVector.t;
  level : Q;
  levelTime : Q;
  status : option string;
  eaten : bool;
  monster : MonsterState.t
}.
End GameState.

(** A value lies in the closed range [0, 100]. *)
Definition in_range (v : Q) : Prop := 0 <= v /\ v <= 100.

Definition needs_in_range (n : NeedsVector.t) : Prop :=
  in_range (hunger n) /\ in_range (thirst n) /\
  in_range (energy n) /\ in_range (fun_ n).

(** Lookup in an object literal used as a table. *)
Fixpoint prop {A : Type} (key : string) (o : list (string * A)) : option A :=
  match o with
  | [] => None
  | (k, v) :: rest => if String.eqb key k then Some v else prop key rest
  end.

(* ================================================================= *)
(** ** Constants *)

Definition BASE_DRAIN : NeedsVector.t := NeedsVector.mk 1.0 1.0 1.0 1.0.

Definition BASE_RECHARGE_lake_thirst : Q := 6.
Definition BASE_RECHARGE_field_hunger : Q := 6.
Definition BASE_RECHARGE_barn_energy : Q := 8.
Definition BASE_RECHARGE_play_fun : Q := 6.

Definition BASE_RECHARGE : list (string * list (string * Q)) :=
  [ ("lake",  [("thirst", BASE_RECHARGE_lake_thirst)]);
    ("field", [("hunger", BASE_RECHARGE_field_hunger)]);
    ("barn",  [("energy", BASE_RECHARGE_barn_energy)]);
    ("play",  [("fun",    BASE_RECHARGE_play_fun)]) ].

Definition DRAIN_GROWTH : Q := 0.80.
Definition RECHARGE_GROWTH : Q := 0.30.
Definition LEVEL_TIME : Q := 30.

(* ================================================================= *)
(** ** Utility functions *)

(** [Math.max(min, Math.min(max, v))] *)
Definition clamp (v min max : Q) : Q := Qmax min (Qmin max v).

(* ================================================================= *)
(** ** Game state functions *)

Definition createInitialState : GameState.t :=
  {| GameState.x := 15;
     GameState.y := 25;
     GameState.needs := NeedsVector.mk 100 100 100 100;
     GameState.level := 1;
     GameState.levelTime := LEVEL_TIME;
     GameState.status := None;
     GameState.eaten := false;
     GameState.monster := MonsterState.mk (-20) 50 false |}.

Definition calculateDrainMultiplier (level : Q) : Q :=
  1 + (level - 1) * DRAIN_GROWTH.

Definition calculateRechargeMultiplier (level : Q) : Q :=
  1 + (level - 1) * RECHARGE_GROWTH.

Definition applyDrain (needs : NeedsVector.t) (level dt : Q) : NeedsVector.t :=
  let drainMult := calculateDrainMultiplier level in
  {| NeedsVector.hunger :=
       clamp (hunger needs - hunger BASE_DRAIN * drainMult * dt) 0 100;
     NeedsVector.thirst :=
       clamp (thirst needs - thirst BASE_DRAIN * drainMult * dt) 0 100;
     NeedsVector.energy :=
       clamp (energy needs - energy BASE_DRAIN * drainMult * dt) 0 100;
     NeedsVector.fun_ :=
       clamp (fun_ needs - fun_ BASE_DRAIN * drainMult * dt) 0 100 |}.

(** [zone === tag] for a zone that is a string or null. *)
Definition zone_is (zone : option string) (tag : string) : bool :=
  match zone with
  | Some s => String.eqb s tag
  | None => false
  end.

Definition applyRecharge (needs : NeedsVector.t) (zone : option string)
  (level dt : Q) : NeedsVector.t :=
  let rechargeMult := calculateRechargeMultiplier level in
  let updated := needs in
  let updated :=
    if zone_is zone "lake" then
      NeedsVector.set_thirst updated
        (clamp (thirst updated + BASE_RECHARGE_lake_thirst * rechargeMult * dt) 0 100)
    else updated in
  let updated :=
    if zone_is zone "field" then
      NeedsVector.set_hunger updated
        (clamp (hunger updated + BASE_RECHARGE_field_hunger * rechargeMult * dt) 0 100)
    else updated in
  let updated :=
    if zone_is zone "barn" then
      NeedsVector.set_energy updated
        (clamp (energy updated + BASE_RECHARGE_barn_energy * rechargeMult * dt) 0 100)
    else updated in
  let updated :=
    if zone_is zone "play" then
      NeedsVector.set_fun updated
        (clamp (fun_ updated + BASE_RECHARGE_play_fun * rechargeMult * dt) 0 100)
    else updated in
  updated.

Definition updateNeeds (needs : NeedsVector.t) (zone : option string)
  (level dt : Q) : NeedsVector.t :=
  let drained := applyDrain needs level dt in
  applyRecharge drained zone level dt.

(** [Object.values(needs).some(v => v <= 0)] *)
Definition checkGameOver (needs : NeedsVector.t) : bool :=
  existsb (fun v => Qle_bool v 0) (NeedsVector.values needs).

Definition checkLevelComplete (levelTime : Q) : bool := Qle_bool levelTime 0.

Definition createNextLevelState (currentState : GameState.t) : GameState.t :=
  {| GameState.x := GameState.x currentState;
     GameState.y := GameState.y currentState;
     GameState.level := GameState.level currentState + 1;
     GameState.needs := NeedsVector.mk 100 100 100 100;
     GameState.levelTime := LEVEL_TIME;
     GameState.status := None;
     GameState.eaten := false;
     GameState.monster := MonsterState.mk (-20) 50 false |}.

Definition updateLevelTimer (currentTime dt : Q) : Q := currentTime - dt.

Definition createMonsterChaseState (currentState : GameState.t) : GameState.t :=
  {| GameState.x := GameState.x currentState;
     GameState.y := GameState.y currentState;
     GameState.needs := GameState.needs currentState;
     GameState.level := GameState.level currentState;
     GameState.levelTime := GameState.levelTime currentState;
     GameState.status := GameState.status currentState;
     GameState.eaten := true;
     GameState.monster :=
       MonsterState.mk (-20) (GameState.y currentState) false |}.

Definition isValidPosition (x y : Q) : bool :=
  Qle_bool 0 x && Qle_bool x 100 && Qle_bool 0 y && Qle_bool y 100.

Definition clampPosition (x y : Q) : Q * Q := (clamp x 0 100, clamp y 0 100).

(** The table local to [calculateNetNeedChange]. *)
Definition zoneToNeed : list (string * string) :=
  [("lake", "thirst"); ("field", "hunger"); ("barn", "energy"); ("play", "fun")].

(** [zone && ...]: null and the empty string are falsy. *)
Definition truthy (zone : option string) : option string :=
  match zone with
  | Some "" => None
  | Some s => Some s
  | None => None
  end.

(** The result is [None] where the source computes NaN: [BASE_DRAIN[needType]]
    is undefined for a name that is not one of the four needs.  A key
    inherited from [Object.prototype] ("constructor", "toString", ...)
    makes [zoneToNeed[zone]] an object or a function, which is never
    [===] to the string [needType]; such keys behave as absent ones.  The
    last [None] stands for an exception the source cannot raise:
    [zoneToNeed] and [BASE_RECHARGE] have the same keys. *)
Definition calculateNetNeedChange (needType : string) (zone : option string)
  (level dt : Q) : option Q :=
  let drainMult := calculateDrainMultiplier level in
  let rechargeMult := calculateRechargeMultiplier level in
  match NeedsVector.get needType BASE_DRAIN with
  | None => None
  | Some baseDrain =>
    let change := - baseDrain * drainMult * dt in
    match truthy zone with
    | None => Some change
    | Some z =>
      match prop z zoneToNeed with
      | None => Some change
      | Some mapped =>
        if String.eqb mapped needType then
          match prop z BASE_RECHARGE with
          | Some ((_, rechargeValue) :: _) =>
              Some (change + rechargeValue * rechargeMult * dt)
          | _ => None
          end
        else Some change
      end
    end
  end.

(** What [displays[zone] || null] evaluates to: a label of the table, a
    member that the table inherits from [Object.prototype] (the lookup
    follows the prototype chain, and every such member is truthy), or
    null. *)
Inductive Display : Set :=
| Label (text : string)
| Inherited (key : string)
| NoDisplay.

(** The table local to [getZoneDisplay]; the labels are the bytes of the
    source file. *)
Definition displays : list (string * string) :=
  [ ("lake",  "Lake ðŸ’§");
    ("field", "Field ðŸŽ");
    ("barn",  "Barn ðŸ’¤");
    ("play",  "Play ðŸŽˆ") ].

(** The key that a zone indexes an object with: null is coerced to the
    string "null". *)
Definition property_key (zone : option string) : string :=
  match zone with
  | Some s => s
  | None => "null"
  end.

Section ZoneDisplay.

(** The names of the properties of [Object.prototype], which depend on the
    JavaScript engine. *)
Variable inherited : string -> bool.

Definition getZoneDisplay (zone : option string) : Display :=
  let key := property_key zone in
  match prop key displays with
  | Some "" => NoDisplay
  | Some label => Label label
  | None => if inherited key then Inherited key else NoDisplay
  end.

End ZoneDisplay.

(* ================================================================= *)
(** ** The caller's loop

    The module leaves the game loop to its caller; the integration tests
    run it by hand, one [updateNeeds] and one [updateLevelTimer] per tick.
    A run is the list of its ticks, each with the zone the unicorn stands
    in and the time delta. *)

Fixpoint run_timer (ticks : list (option string * Q)) (levelTime : Q) : Q :=
  match ticks with
  | [] => levelTime
  | (_, dt) :: rest => run_timer rest (updateLevelTimer levelTime dt)
  end.

(** Every time delta of the run is >= 0. *)
Definition forward (ticks : list (option string * Q)) : Prop :=
  Forall (fun t => 0 <= snd t) ticks.

(** [zoneToNeed[zone] === need], for a zone that is a string or null. *)
Definition zone_feeds (zone : option string) (k : Need) : bool :=
  match zone with
  | Some s =>
      match prop s zoneToNeed with
      | Some mapped => String.eqb mapped (need_name k)
      | None => false
      end
  | None => false
  end.

(* ================================================================= *)
(** ** The double reading

    The functions of the module once more, over binary64.  [lit q] is the
    double that a decimal literal denotes: the quotient of two integers,
    rounded once to nearest even.  The four operations are those of
    [SpecFloat] at precision 53 and maximal exponent 1024; a comparison
    with a NaN is false; [Math.max] and [Math.min] return NaN when an
    argument is NaN and order -0 below +0. *)

Declare Scope double_scope.
Delimit Scope double_scope with dbl.

Module Double.

Definition number : Set := spec_float.
Definition prec : Z := 53.
Definition emax : Z := 1024.

Definition integer (z : Z) : number :=
  match z with
  | Z0 => S754_zero false
  | Zpos m => S754_finite false m 0
  | Zneg m => S754_finite true m 0
  end.

Definition lit (q : Q) : number :=
  SFdiv prec emax (integer (Qnum q)) (integer (Zpos (Qden q))).

Definition nan : number := S754_nan.

Definition add : number -> number -> number := SFadd prec emax.
Definition sub : number -> number -> number := SFsub prec emax.
Definition mul : number -> number -> number := SFmul prec emax.
Definition neg : number -> number := SFopp.
Definition ltb : number -> number -> bool := SFltb.
Definition leb : number -> number -> bool := SFleb.
Definition eqb : number -> number -> bool := SFeqb.

Infix "+" := add : double_scope.
Infix "-" := sub : double_scope.
Infix "*" := mul : double_scope.
Notation "- x" := (neg x) : double_scope.
Infix "<=?" := leb : double_scope.
Infix "<?" := ltb : double_scope.
Infix "=?" := eqb : double_scope.
Local Open Scope double_scope.

Definition is_nan (x : number) : bool :=
  match x with S754_nan => true | _ => false end.

Definition is_finite (x : number) : bool :=
  match x with S754_zero _ | S754_finite _ _ _ => true | _ => false end.

Definition is_neg_zero (x : number) : bool :=
  match x with S754_zero true => true | _ => false end.

(** [Math.max(a, b)] *)
Definition Math_max (a b : number) : number :=
  match SFcompare a b with
  | None => nan
  | Some Lt => b
  | Some Gt => a
  | Some Eq => if is_neg_zero a then b else a
  end.

(** [Math.min(a, b)] *)
Definition Math_min (a b : number) : number :=
  match SFcompare a b with
  | None => nan
  | Some Lt => a
  | Some Gt => b
  | Some Eq => if is_neg_zero a then a else b
  end.

Module NeedsVector.
Record t : Set :=
  mk { hunger : number; thirst : number; energy : number; fun_ : number }.

Definition get (key : string) (n : t) : option number :=
  if String.eqb key "hunger" then Some (hunger n)
  else if String.eqb key "thirst" then Some (thirst n)
  else if String.eqb key "energy" then Some (energy n)
  else if String.eqb key "fun" then Some (fun_ n)
  else None.

Definition set_hunger (n : t) (v : number) : t := mk v (thirst n) (energy n) (fun_ n).
Definition set_thirst (n : t) (v : number) : t := mk (hunger n) v (energy n) (fun_ n).
Definition set_energy (n : t) (v : number) : t := mk (hunger n) (thirst n) v (fun_ n).
Definition set_fun (n : t) (v : number) : t := mk (hunger n) (thirst n) (energy n) v.
End NeedsVector.

Import NeedsVector(hunger, thirst, energy, fun_).

Definition need_field (k : Need) (n : NeedsVector.t) : number :=
  match k with
  | Hunger => hunger n | Thirst => thirst n | Energy => energy n | Fun => fun_ n
  end.

(** A value lies in the closed range [0, 100]; a NaN does not. *)
Definition in_range (v : number) : Prop :=
  (lit 0 <=? v) = true /\ (v <=? lit 100) = true.

(** A value lies strictly between 0 and 100: no clamp changes it. *)
Definition strictly_inside (v : number) : Prop :=
  (lit 0 <? v) = true /\ (v <? lit 100) = true.

Definition needs_in_range (n : NeedsVector.t) : Prop :=
  in_range (hunger n) /\ in_range (thirst n) /\
  in_range (energy n) /\ in_range (fun_ n).

Definition needs_finite (n : NeedsVector.t) : Prop :=
  is_finite (hunger n) = true /\ is_finite (thirst n) = true /\
  is_finite (energy n) = true /\ is_finite (fun_ n) = true.

(** Two numbers are within [tol] of each other. *)
Definition within (x y tol : number) : bool :=
  (x - y <=? tol) && (y - x <=? tol).

Definition BASE_DRAIN : NeedsVector.t :=
  NeedsVector.mk (lit 1.0) (lit 1.0) (lit 1.0) (lit 1.0).

Definition BASE_RECHARGE_lake_thirst : number := lit 6.
Definition BASE_RECHARGE_field_hunger : number := lit 6.
Definition BASE_RECHARGE_barn_energy : number := lit 8.
Definition BASE_RECHARGE_play_fun : number := lit 6.

Definition BASE_RECHARGE : list (string * list (string * number)) :=
  [ ("lake",  [("thirst", BASE_RECHARGE_lake_thirst)]);
    ("field", [("hunger", BASE_RECHARGE_field_hunger)]);
    ("barn",  [("energy", BASE_RECHARGE_barn_energy)]);
    ("play",  [("fun",    BASE_RECHARGE_play_fun)]) ].

Definition DRAIN_GROWTH : number := lit 0.80.
Definition RECHARGE_GROWTH : number := lit 0.30.
Definition LEVEL_TIME : number := lit 30.

(** [Math.max(min, Math.min(max, v))] *)
Definition clamp (v min max : number) : number := Math_max min (Math_min max v).

Definition calculateDrainMultiplier (level : number) : number :=
  lit 1 + (level - lit 1) * DRAIN_GROWTH.

Definition calculateRechargeMultiplier (level : number) : number :=
  lit 1 + (level - lit 1) * RECHARGE_GROWTH.

Definition applyDrain (needs : NeedsVector.t) (level dt : number)
  : NeedsVector.t :=
  let drainMult := calculateDrainMultiplier level in
  {| NeedsVector.hunger :=
       clamp (hunger needs - hunger BASE_DRAIN * drainMult * dt)
         (lit 0) (lit 100);
     NeedsVector.thirst :=
       clamp (thirst needs - thirst BASE_DRAIN * drainMult * dt)
         (lit 0) (lit 100);
     NeedsVector.energy :=
       clamp (energy needs - energy BASE_DRAIN * drainMult * dt)
         (lit 0) (lit 100);
     NeedsVector.fun_ :=
       clamp (fun_ needs - fun_ BASE_DRAIN * drainMult * dt)
         (lit 0) (lit 100) |}.

Definition applyRecharge (needs : NeedsVector.t) (zone : option string)
  (level dt : number) : NeedsVector.t :=
  let rechargeMult := calculateRechargeMultiplier level in
  let updated := needs in
  let updated :=
    if zone_is zone "lake" then
      NeedsVector.set_thirst updated
        (clamp (thirst updated + BASE_RECHARGE_lake_thirst * rechargeMult * dt)
           (lit 0) (lit 100))
    else updated in
  let updated :=
    if zone_is zone "field" then
      NeedsVector.set_hunger updated
        (clamp (hunger updated + BASE_RECHARGE_field_hunger * rechargeMult * dt)
           (lit 0) (lit 100))
    else updated in
  let updated :=
    if zone_is zone "barn" then
      NeedsVector.set_energy updated
        (clamp (energy updated + BASE_RECHARGE_barn_energy * rechargeMult * dt)
           (lit 0) (lit 100))
    else updated in
  let updated :=
    if zone_is zone "play" then
      NeedsVector.set_fun updated
        (clamp (fun_ updated + BASE_RECHARGE_play_fun * rechargeMult * dt)
           (lit 0) (lit 100))
    else updated in
  updated.

Definition updateNeeds (needs : NeedsVector.t) (zone : option string)
  (level dt : number) : NeedsVector.t :=
  let drained := applyDrain needs level dt in
  applyRecharge drained zone level dt.

(** [-BASE_DRAIN[needType]] is NaN for a name that is not a key of
    [BASE_DRAIN] (the negation of [undefined], or of an inherited
    function), and NaN spreads through the products and the sum. *)
Definition calculateNetNeedChange (needType : string) (zone : option string)
  (level dt : number) : number :=
  let drainMult := calculateDrainMultiplier level in
  let rechargeMult := calculateRechargeMultiplier level in
  let baseDrain :=
    match NeedsVector.get needType BASE_DRAIN with
    | Some v => v
    | None => nan
    end in
  let change := - baseDrain * drainMult * dt in
  match truthy zone with
  | None => change
  | Some z =>
    match prop z zoneToNeed with
    | None => change
    | Some mapped =>
      if String.eqb mapped needType then
        match prop z BASE_RECHARGE with
        | Some ((_, rechargeValue) :: _) =>
            change + rechargeValue * rechargeMult * dt
        | _ => nan
        end
      else change
    end
  end.

(** The three amounts that a tick at this level subtracts or adds (the
    drain, and the recharge at the base rates 6 and 8) are numbers. *)
Definition tick_is_numeric (level dt : number) : bool :=
  negb (is_nan (lit 1.0 * calculateDrainMultiplier level * dt)) &&
  negb (is_nan (lit 6 * calculateRechargeMultiplier level * dt)) &&
  negb (is_nan (lit 8 * calculateRechargeMultiplier level * dt)).

(** The caller's loop on the needs: one [updateNeeds] per tick. *)
Fixpoint run_ticks (level : number) (ticks : list (option string * number))
  (needs : NeedsVector.t) : NeedsVector.t :=
  match ticks with
  | [] => needs
  | (zone, dt) :: rest => run_ticks level rest (updateNeeds needs zone level dt)
  end.

(** The level [n] as a number. *)
Definition of_nat (n : nat) : number := lit (inject_Z (Z.of_nat n)).

(** From level [n] to level [n + 1] the two multipliers grow by 0.80 and
    by 0.30 to within 1e-13, and at level [n + 1] the drain multiplier is
    the larger. *)
Definition multipliers_step_ok (n : nat) : bool :=
  within (calculateDrainMultiplier (of_nat (S n))
          - calculateDrainMultiplier (of_nat n)) (lit 0.80) (lit 1e-13) &&
  within (calculateRechargeMultiplier (of_nat (S n))
          - calculateRechargeMultiplier (of_nat n)) (lit 0.30) (lit 1e-13) &&
  (calculateRechargeMultiplier (of_nat (S n))
   <? calculateDrainMultiplier (of_nat (S n))).

End Double.

Infix "+" := Double.add : double_scope.
Infix "-" := Double.sub : double_scope.
Infix "*" := Double.mul : double_scope.
Notation "- x" := (Double.neg x) : double_scope.
Infix "<=?" := Double.leb : double_scope.
Infix "<?" := Double.ltb : double_scope.
Infix "=?" := Double.eqb : double_scope.

(* ================================================================= *)
(** ** The exact reading on the examples of the test suite *)

Example clamp_inside : clamp 50 0 100 = 50.
Proof. reflexivity. Qed.

Example clamp_below : clamp (-5) 0 100 = 0.
Proof. reflexivity. Qed.

Example clamp_above : clamp 150 0 100 = 100.
Proof. reflexivity. Qed.

Example drain_multiplier_level2 : calculateDrainMultiplier 2 == 1.8.
Proof. reflexivity. Qed.

Example recharge_multiplier_level3 : calculateRechargeMultiplier 3 == 1.6.
Proof. reflexivity. Qed.

Example drain_floor :
  applyDrain (NeedsVector.mk 0.05 0.05 0.05 0.05) 10 1.0
  = NeedsVector.mk 0 0 0 0.
Proof. reflexivity. Qed.

Example lake_tick :
  let r := updateNeeds (NeedsVector.mk 50 50 50 50) (Some "lake") 1 0.1 in
  hunger r == 49.9 /\ thirst r == 50.5 /\ energy r == 49.9 /\ fun_ r == 49.9.
Proof. vm_compute. repeat split. Qed.

Example net_change_thirst_lake :
  option_map Qred (calculateNetNeedChange "thirst" (Some "lake") 1 0.1)
  = Some (1 # 2).
Proof. reflexivity. Qed.

Example net_change_unknown_need :
  calculateNetNeedChange "mood" (Some "lake") 1 0.1 = None.
Proof. reflexivity. Qed.

(* ================================================================= *)
(** ** Double arithmetic

    What the proofs below need of binary64: the order is total on
    numbers that are not NaN, [Math.max] and [Math.min] land on one of
    their arguments, rounding never makes a NaN, and the sign goes through
    a product. *)

Arguments Double.lit : simpl never.
Arguments Double.add : simpl never.
Arguments Double.sub : simpl never.
Arguments Double.mul : simpl never.
Arguments Double.neg : simpl never.
Arguments Double.clamp : simpl never.
Arguments Double.calculateDrainMultiplier : simpl never.
Arguments Double.calculateRechargeMultiplier : simpl never.

Lemma double_compare_antisym (a b : Double.number) :
  SFcompare b a = option_map CompOpp (SFcompare a b).
Proof.
  destruct a as [sa | sa | | sa ma ea], b as [sb | sb | | sb mb eb];
    try (destruct sa; reflexivity); try (destruct sb; reflexivity);
    try (destruct sa, sb; reflexivity); try reflexivity.
  cbn [SFcompare option_map].
  rewrite (Z.compare_antisym ea eb).
  pose proof (Pos.compare_cont_antisym ma mb Eq) as Hp. cbn [CompOpp] in Hp.
  rewrite <- Hp.
  destruct sa, sb, (ea ?= eb)%Z, (Pos.compare_cont Eq ma mb); reflexivity.
Qed.

Lemma double_compare_refl (a : Double.number) :
  Double.is_nan a = false -> SFcompare a a = Some Eq.
Proof.
  destruct a as [s | s | | s m e]; intros H; try discriminate H;
    try (destruct s; reflexivity).
  cbn [SFcompare]. rewrite Z.compare_refl, Pos.compare_cont_refl.
  destruct s; reflexivity.
Qed.

Lemma double_compare_none (a b : Double.number) :
  SFcompare a b = None -> Double.is_nan a = true \/ Double.is_nan b = true.
Proof.
  destruct a as [sa | sa | | sa ma ea], b as [sb | sb | | sb mb eb];
    cbn; intros H; try discriminate H; auto.
Qed.

Lemma double_leb_of_compare (a b : Double.number) (c : comparison) :
  SFcompare a b = Some c -> c <> Gt -> Double.leb a b = true.
Proof.
  intros H Hc. unfold Double.leb, SFleb. rewrite H. destruct c; congruence.
Qed.

Lemma double_leb_refl (a : Double.number) :
  Double.is_nan a = false -> Double.leb a a = true.
Proof.
  intros H. apply double_leb_of_compare with Eq;
    [apply double_compare_refl, H | discriminate].
Qed.

Lemma double_leb_not_nan (a b : Double.number) :
  Double.leb a b = true -> Double.is_nan a = false /\ Double.is_nan b = false.
Proof.
  unfold Double.leb, SFleb.
  destruct a, b; cbn; intros H; try discriminate H; auto.
Qed.

(** [Math.min] of two numbers is one of them and is below both. *)
Lemma Math_min_spec (a b : Double.number) :
  Double.is_nan a = false -> Double.is_nan b = false ->
  (Double.Math_min a b = a \/ Double.Math_min a b = b) /\
  Double.leb (Double.Math_min a b) a = true /\
  Double.leb (Double.Math_min a b) b = true.
Proof.
  intros Hna Hnb. unfold Double.Math_min.
  pose proof (double_compare_antisym a b) as Ha.
  destruct (SFcompare a b) as [[| |] |] eqn:Hc; cbn in Ha.
  - destruct (Double.is_neg_zero a);
      repeat split; auto using double_leb_refl;
      apply double_leb_of_compare with Eq; (assumption || discriminate).
  - repeat split; auto using double_leb_refl.
    apply double_leb_of_compare with Lt; (assumption || discriminate).
  - repeat split; auto using double_leb_refl.
    apply double_leb_of_compare with Lt; (assumption || discriminate).
  - apply double_compare_none in Hc. destruct Hc; congruence.
Qed.

(** [Math.max] of two numbers is one of them and is above both. *)
Lemma Math_max_spec (a b : Double.number) :
  Double.is_nan a = false -> Double.is_nan b = false ->
  (Double.Math_max a b = a \/ Double.Math_max a b = b) /\
  Double.leb a (Double.Math_max a b) = true /\
  Double.leb b (Double.Math_max a b) = true.
Proof.
  intros Hna Hnb. unfold Double.Math_max.
  pose proof (double_compare_antisym a b) as Ha.
  destruct (SFcompare a b) as [[| |] |] eqn:Hc; cbn in Ha.
  - destruct (Double.is_neg_zero a);
      repeat split; auto using double_leb_refl;
      apply double_leb_of_compare with Eq; (assumption || discriminate).
  - repeat split; auto using double_leb_refl.
    apply double_leb_of_compare with Lt; (assumption || discriminate).
  - repeat split; auto using double_leb_refl.
    apply double_leb_of_compare with Lt; (assumption || discriminate).
  - apply double_compare_none in Hc. destruct Hc; congruence.
Qed.

Lemma double_clamp_between (v lo hi : Double.number) :
  Double.leb lo hi = true -> Double.is_nan v = false ->
  Double.leb lo (Double.clamp v lo hi) = true /\
  Double.leb (Double.clamp v lo hi) hi = true.
Proof.
  intros Hb Hv. destruct (double_leb_not_nan _ _ Hb) as [Hlo Hhi].
  unfold Double.clamp.
  destruct (Math_min_spec hi v Hhi Hv) as ([Em | Em] & Hmh & Hmv).
  - rewrite Em.
    destruct (Math_max_spec lo hi Hlo Hhi) as ([E | E] & Hl & Hm); rewrite E;
      auto using double_leb_refl.
  - rewrite Em in *.
    destruct (Math_max_spec lo v Hlo Hv) as ([E | E] & Hl & Hm).
    + rewrite E. auto using double_leb_refl.
    + rewrite E in *. auto.
Qed.

Lemma double_clamp_nan (lo hi : Double.number) :
  Double.clamp Double.nan lo hi = Double.nan.
Proof.
  unfold Double.clamp, Double.Math_min, Double.Math_max.
  destruct hi, lo; reflexivity.
Qed.

Lemma double_clamp_strictly_inside (v lo hi : Double.number) :
  Double.ltb lo v = true -> Double.ltb v hi = true -> Double.clamp v lo hi = v.
Proof.
  unfold Double.ltb, SFltb, Double.clamp, Double.Math_min, Double.Math_max.
  intros Hl Hh.
  pose proof (double_compare_antisym v hi) as Ha.
  destruct (SFcompare v hi) as [[| |] |]; try discriminate Hh.
  cbn in Ha. rewrite Ha.
  destruct (SFcompare lo v) as [[| |] |]; try discriminate Hl. reflexivity.
Qed.

(** Rounding a mantissa that is not negative gives no NaN. *)
Lemma shr_1_nonneg (mrs : shr_record) :
  (0 <= shr_m mrs)%Z -> (0 <= shr_m (shr_1 mrs))%Z.
Proof.
  destruct mrs as [m r s]. destruct m as [| [p | p |] | p]; cbn; lia.
Qed.

Lemma iter_shr_1_nonneg (p : positive) (mrs : shr_record) :
  (0 <= shr_m mrs)%Z -> (0 <= shr_m (iter_pos shr_1 p mrs))%Z.
Proof.
  revert mrs. induction p as [p IH | p IH |]; intros mrs H; cbn [iter_pos].
  - apply IH, IH, shr_1_nonneg, H.
  - apply IH, IH, H.
  - apply shr_1_nonneg, H.
Qed.

Lemma shr_fexp_nonneg (m e : Z) (l : location) :
  (0 <= m)%Z ->
  (0 <= shr_m (fst (shr_fexp Double.prec Double.emax m e l)))%Z.
Proof.
  intros H. unfold shr_fexp, shr.
  assert (H0 : (0 <= shr_m (shr_record_of_loc m l))%Z)
    by (destruct l as [| []]; exact H).
  destruct (_ - e)%Z; cbn [fst]; auto using iter_shr_1_nonneg.
Qed.

Lemma round_nearest_even_nonneg (m : Z) (l : location) :
  (0 <= m)%Z -> (0 <= round_nearest_even m l)%Z.
Proof.
  intros H. destruct l as [| []]; cbn; try destruct (Z.even m); lia.
Qed.

Lemma binary_round_aux_not_nan (sx : bool) (mx ex : Z) (lx : location) :
  (0 <= mx)%Z ->
  Double.is_nan (binary_round_aux Double.prec Double.emax sx mx ex lx) = false.
Proof.
  intros H. unfold binary_round_aux.
  pose proof (shr_fexp_nonneg mx ex lx H) as H1.
  destruct (shr_fexp Double.prec Double.emax mx ex lx) as [mrs' e'].
  cbn [fst] in H1.
  pose proof (shr_fexp_nonneg
                (round_nearest_even (shr_m mrs') (loc_of_shr_record mrs'))
                e' loc_Exact (round_nearest_even_nonneg _ _ H1)) as H2.
  destruct (shr_fexp Double.prec Double.emax _ e' loc_Exact) as [mrs'' e''].
  cbn [fst] in H2.
  destruct (shr_m mrs'') as [| m | m]; [reflexivity | | lia].
  destruct (Z.leb _ _); reflexivity.
Qed.

Lemma binary_normalize_not_nan (m e : Z) (szero : bool) :
  Double.is_nan (binary_normalize Double.prec Double.emax m e szero) = false.
Proof.
  unfold binary_normalize, binary_round.
  destruct m as [| p | p]; [reflexivity | |];
    destruct (shl_align _ _ _) as [mz ez];
    apply binary_round_aux_not_nan; lia.
Qed.

(** A sum or a difference is NaN only if an operand is NaN or both are
    infinite. *)
Lemma double_add_finite_not_nan (x y : Double.number) :
  Double.is_finite x = true -> Double.is_nan y = false ->
  Double.is_nan (Double.add x y) = false.
Proof.
  unfold Double.add.
  destruct x as [sx | sx | | sx mx ex], y as [sy | sy | | sy my ey];
    cbn; intros Hx Hy; try discriminate; try reflexivity;
    try (destruct sx, sy; reflexivity).
  apply binary_normalize_not_nan.
Qed.

Lemma double_sub_finite_not_nan (x y : Double.number) :
  Double.is_finite x = true -> Double.is_nan y = false ->
  Double.is_nan (Double.sub x y) = false.
Proof.
  unfold Double.sub.
  destruct x as [sx | sx | | sx mx ex], y as [sy | sy | | sy my ey];
    cbn; intros Hx Hy; try discriminate; try reflexivity;
    try (destruct sx, sy; reflexivity).
  apply binary_normalize_not_nan.
Qed.

(** The sign goes through rounding and through a product; a difference is
    the sum with the negation. *)
Lemma binary_round_aux_neg (sx : bool) (mx ex : Z) (lx : location) :
  binary_round_aux Double.prec Double.emax (negb sx) mx ex lx
  = Double.neg (binary_round_aux Double.prec Double.emax sx mx ex lx).
Proof.
  unfold binary_round_aux.
  destruct (shr_fexp Double.prec Double.emax mx ex lx) as [mrs' e'].
  destruct (shr_fexp Double.prec Double.emax _ e' loc_Exact) as [mrs'' e''].
  destruct (shr_m mrs''); try reflexivity.
  destruct (Z.leb _ _); reflexivity.
Qed.

Lemma double_mul_neg_l (x y : Double.number) :
  Double.mul (Double.neg x) y = Double.neg (Double.mul x y).
Proof.
  unfold Double.mul, Double.neg.
  destruct x as [sx | sx | | sx mx ex], y as [sy | sy | | sy my ey];
    try reflexivity; cbn;
    try (destruct sx, sy; reflexivity).
  fold Double.neg. rewrite <- binary_round_aux_neg.
  destruct sx, sy; reflexivity.
Qed.

Lemma double_sub_add_neg (x y : Double.number) :
  Double.sub x y = Double.add x (Double.neg y).
Proof.
  unfold Double.sub, Double.add, Double.neg.
  destruct x as [sx | sx | | sx mx ex], y as [sy | sy | | sy my ey];
    try reflexivity; cbn;
    try (destruct sx, sy; reflexivity).
Qed.

Lemma double_in_range_finite (v : Double.number) :
  Double.in_range v -> Double.is_finite v = true.
Proof.
  intros [Hlo Hhi]. destruct v as [s | s | | s m e]; try reflexivity.
  - destruct s; [discriminate Hlo | discriminate Hhi].
  - discriminate Hlo.
Qed.

Lemma double_clamp_in_range (v : Double.number) :
  Double.is_nan v = false ->
  Double.in_range (Double.clamp v (Double.lit 0) (Double.lit 100)).
Proof.
  intros H. apply double_clamp_between; [reflexivity | exact H].
Qed.

(* ================================================================= *)
(** ** The clamping primitive *)

Lemma clamp_in_range (v : Q) : in_range (clamp v 0 100).
Proof.
  unfold in_range, clamp. split.
  - apply Q.le_max_l.
  - apply Q.max_lub; [lra | apply Q.le_min_l].
Qed.

Lemma clamp_id (v : Q) : in_range v -> clamp v 0 100 == v.
Proof.
  intros [Hlo Hhi]. unfold clamp.
  rewrite (Q.min_r 100 v Hhi). apply Q.max_r. exact Hlo.
Qed.

Lemma clamp_idempotent (v : Q) : clamp (clamp v 0 100) 0 100 == clamp v 0 100.
Proof. apply clamp_id, clamp_in_range. Qed.

Lemma clamp_monotone (a b : Q) : a <= b -> clamp a 0 100 <= clamp b 0 100.
Proof.
  intros Hab. unfold clamp.
  apply Q.max_le_compat_l, Q.min_le_compat_l, Hab.
Qed.

(** Clamping a value that is not above a non-negative bound stays under
    the bound. *)
Lemma clamp_le_bound (v bound : Q) :
  0 <= bound -> v <= bound -> clamp v 0 100 <= bound.
Proof.
  intros Hb Hv. unfold clamp. apply Q.max_lub; [exact Hb |].
  apply Qle_trans with v; [apply Q.le_min_r | exact Hv].
Qed.

Lemma clampPosition_idempotent (x y : Q) :
  let p := clampPosition x y in
  fst (clampPosition (fst p) (snd p)) == fst p /\
  snd (clampPosition (fst p) (snd p)) == snd p.
Proof. simpl. split; apply clamp_idempotent. Qed.

(* ================================================================= *)
(** ** Reading a need by name *)

Lemma get_need_name (k : Need) (n : NeedsVector.t) :
  NeedsVector.get (need_name k) n = Some (need_field k n).
Proof. destruct k; reflexivity. Qed.

Lemma need_field_in_range (n : NeedsVector.t) :
  needs_in_range n <-> forall k, in_range (need_field k n).
Proof.
  unfold needs_in_range. split.
  - intros (Hh & Ht & He & Hf) k. destruct k; assumption.
  - intros H. repeat split;
      first [ apply (H Hunger) | apply (H Thirst)
            | apply (H Energy) | apply (H Fun) ].
Qed.

(* ================================================================= *)
(** ** Difficulty scaling *)

Lemma drain_multiplier_ge_1 (level : Q) :
  1 <= level -> 1 <= calculateDrainMultiplier level.
Proof.
  intros H. unfold calculateDrainMultiplier, DRAIN_GROWTH. lra.
Qed.

Lemma recharge_multiplier_ge_1 (level : Q) :
  1 <= level -> 1 <= calculateRechargeMultiplier level.
Proof.
  intros H. unfold calculateRechargeMultiplier, RECHARGE_GROWTH. lra.
Qed.

(** C9 (as the code has it).  For every level L >= 1 the drain multiplier
    is 1 + (L - 1) * 0.80 and the recharge multiplier is
    1 + (L - 1) * 0.30; both are exactly 1.0 at level 1, also in double
    arithmetic; neither multiplier goes down from a level to the next;
    for L > 1 the drain multiplier is strictly above the recharge
    multiplier.  The step from a level to the next is 0.80 and 0.30 only
    up to rounding: in double arithmetic, for every integer level from 1
    to 1000, the two steps are within 1e-13 of 0.80 and of 0.30 (and the
    drain multiplier is the larger at the next level). *)
Theorem multipliers_scale (L : Q) :
  1 <= L ->
  calculateDrainMultiplier L = 1 + (L - 1) * 0.80 /\
  calculateRechargeMultiplier L = 1 + (L - 1) * 0.30 /\
  calculateDrainMultiplier 1 == 1.0 /\
  calculateRechargeMultiplier 1 == 1.0 /\
  Double.calculateDrainMultiplier (Double.lit 1) = Double.lit 1.0 /\
  Double.calculateRechargeMultiplier (Double.lit 1) = Double.lit 1.0 /\
  calculateDrainMultiplier L <= calculateDrainMultiplier (L + 1) /\
  calculateRechargeMultiplier L <= calculateRechargeMultiplier (L + 1) /\
  (1 < L -> calculateRechargeMultiplier L < calculateDrainMultiplier L) /\
  (forall n : nat, (1 <= n <= 1000)%nat ->
     Double.multipliers_step_ok n = true).
Proof.
  intros HL.
  split; [reflexivity |]. split; [reflexivity |].
  split; [reflexivity |]. split; [reflexivity |].
  split; [vm_compute; reflexivity |]. split; [vm_compute; reflexivity |].
  unfold calculateDrainMultiplier, calculateRechargeMultiplier,
    DRAIN_GROWTH, RECHARGE_GROWTH.
  split; [lra |]. split; [lra |]. split; [intros H1; lra |].
  assert (Hall : forallb Double.multipliers_step_ok (seq 1 1000) = true)
    by (vm_compute; reflexivity).
  intros n [Hlo Hhi]. rewrite forallb_forall in Hall. apply Hall.
  apply in_seq. lia.
Qed.

Lemma multipliers_scale_witness :
  1 <= 3 /\
  calculateDrainMultiplier 3 == 2.6 /\
  calculateRechargeMultiplier 3 == 1.6 /\
  calculateRechargeMultiplier 3 < calculateDrainMultiplier 3 /\
  Double.multipliers_step_ok 3 = true.
Proof.
  assert (H13 : 1 <= 3) by lra.
  assert (Hlt : 1 < 3) by lra.
  destruct (multipliers_scale 3 H13)
    as (Hd & Hr & _ & _ & _ & _ & _ & _ & Hgt & Hstep).
  split; [exact H13 |].
  split; [rewrite Hd; reflexivity |].
  split; [rewrite Hr; reflexivity |].
  split; [exact (Hgt Hlt) |].
  apply Hstep. lia.
Defined.

(** C9 as stated fails in double arithmetic: the drain multipliers of
    levels 3 and 4 differ by 0.8000000000000003, not by 0.80, and the
    recharge multipliers of levels 1 and 2 by 0.30000000000000004. *)
Lemma multiplier_step_is_not_exact :
  let step_drain :=
    Double.sub (Double.calculateDrainMultiplier (Double.lit 4))
               (Double.calculateDrainMultiplier (Double.lit 3)) in
  let step_recharge :=
    Double.sub (Double.calculateRechargeMultiplier (Double.lit 2))
               (Double.calculateRechargeMultiplier (Double.lit 1)) in
  step_drain = Double.lit 0.8000000000000003 /\
  Double.eqb step_drain (Double.lit 0.80) = false /\
  step_recharge = Double.lit 0.30000000000000004 /\
  Double.eqb step_recharge (Double.lit 0.30) = false.
Proof. vm_compute. repeat split. Qed.

(* ================================================================= *)
(** ** Drain *)

Lemma applyDrain_in_range (needs : NeedsVector.t) (level dt : Q) :
  needs_in_range (applyDrain needs level dt).
Proof.
  unfold needs_in_range, applyDrain; simpl.
  repeat split; apply clamp_in_range.
Qed.

Lemma applyDrain_field (k : Need) (needs : NeedsVector.t) (level dt : Q) :
  need_field k (applyDrain needs level dt)
  = clamp (need_field k needs
           - need_field k BASE_DRAIN * calculateDrainMultiplier level * dt)
          0 100.
Proof. destruct k; reflexivity. Qed.

Lemma base_drain_rate (k : Need) : need_field k BASE_DRAIN = 1.0.
Proof. destruct k; reflexivity. Qed.

(** C2 (as the code has it).  For every NeedsVector, level and dt >= 0,
    each field of the drain result is the input field minus
    1.0 * drainMultiplier(level) * dt, clamped to [0, 100] on its own; so
    every field of the result is in [0, 100], and a field is at most the
    input field whenever that input field is non-negative and the drain
    multiplier is non-negative (as it is for every level >= 1). *)
Theorem applyDrain_decreases (needs : NeedsVector.t) (level dt : Q) :
  0 <= dt ->
  (forall k,
     need_field k (applyDrain needs level dt)
     = clamp (need_field k needs - 1.0 * calculateDrainMultiplier level * dt)
             0 100) /\
  needs_in_range (applyDrain needs level dt) /\
  (forall k,
     0 <= calculateDrainMultiplier level ->
     0 <= need_field k needs ->
     need_field k (applyDrain needs level dt) <= need_field k needs) /\
  (1 <= level -> 0 <= calculateDrainMultiplier level).
Proof.
  intros Hdt. split; [| split; [| split]].
  - intros k. destruct k; reflexivity.
  - apply applyDrain_in_range.
  - intros k Hmult Hk. rewrite applyDrain_field, base_drain_rate.
    apply clamp_le_bound; [exact Hk |].
    assert (0 <= calculateDrainMultiplier level * dt)
      by (apply Qmult_le_0_compat; assumption).
    lra.
  - intros Hl. pose proof (drain_multiplier_ge_1 level Hl). lra.
Qed.

Lemma applyDrain_decreases_witness :
  let needs := NeedsVector.mk 100 50 7 0 in
  0 <= 1 /\
  need_field Thirst (applyDrain needs 2 1) == 48.2 /\
  needs_in_range (applyDrain needs 2 1) /\
  (forall k, need_field k (applyDrain needs 2 1) <= need_field k needs).
Proof.
  intros needs.
  assert (Hdt : 0 <= 1) by lra.
  assert (Hlvl : 1 <= 2) by lra.
  destruct (applyDrain_decreases needs 2 1 Hdt) as (Hfield & Hrange & Hle & Hmult).
  split; [exact Hdt |].
  split; [rewrite (Hfield Thirst); reflexivity |].
  split; [exact Hrange |].
  intros k. apply Hle; [exact (Hmult Hlvl) |].
  destruct k; simpl; lra.
Defined.

(** C2 as stated fails on two kinds of input: a need that is already
    negative is raised to 0 by the clamp, and a level whose drain
    multiplier is negative makes the drain a gain. *)
Lemma applyDrain_can_exceed_input :
  (0 <= 1 /\
   ~ hunger (applyDrain (NeedsVector.mk (-5) 50 50 50) 1 1)
     <= hunger (NeedsVector.mk (-5) 50 50 50)) /\
  (0 <= 1 /\
   ~ hunger (applyDrain (NeedsVector.mk 50 50 50 50) (-1) 1)
     <= hunger (NeedsVector.mk 50 50 50 50)).
Proof.
  split; (split; [lra |]); vm_compute; intros H; apply H; reflexivity.
Qed.

(* ================================================================= *)
(** ** Recharge *)

Lemma zone_is_unrecognized (tag other : string) :
  tag <> other -> zone_is (Some tag) other = false.
Proof. intros H. simpl. apply String.eqb_neq, H. Qed.

Lemma applyRecharge_unrecognized (needs : NeedsVector.t) (tag : string)
  (level dt : Q) :
  tag <> "lake" -> tag <> "field" -> tag <> "barn" -> tag <> "play" ->
  applyRecharge needs (Some tag) level dt = needs.
Proof.
  intros Hl Hf Hb Hp. unfold applyRecharge.
  rewrite (zone_is_unrecognized tag "lake" Hl),
    (zone_is_unrecognized tag "field" Hf),
    (zone_is_unrecognized tag "barn" Hb),
    (zone_is_unrecognized tag "play" Hp).
  reflexivity.
Qed.

(** C3.  For every NeedsVector, level and dt: in a recognized zone
    applyRecharge replaces exactly the need mapped to the zone (lake ->
    thirst at base 6, field -> hunger at base 6, barn -> energy at base 8,
    play -> fun at base 6) by its value plus
    baseRate * rechargeMultiplier(level) * dt clamped to [0, 100] and
    returns the other three fields as they are; with no zone, or with a
    tag that is none of the four, all four fields come back as they are. *)
Theorem applyRecharge_frame (needs : NeedsVector.t) (level dt : Q) :
  applyRecharge needs (Some "lake") level dt
  = NeedsVector.mk
      (hunger needs)
      (clamp (thirst needs + 6 * calculateRechargeMultiplier level * dt) 0 100)
      (energy needs)
      (fun_ needs) /\
  applyRecharge needs (Some "field") level dt
  = NeedsVector.mk
      (clamp (hunger needs + 6 * calculateRechargeMultiplier level * dt) 0 100)
      (thirst needs)
      (energy needs)
      (fun_ needs) /\
  applyRecharge needs (Some "barn") level dt
  = NeedsVector.mk
      (hunger needs)
      (thirst needs)
      (clamp (energy needs + 8 * calculateRechargeMultiplier level * dt) 0 100)
      (fun_ needs) /\
  applyRecharge needs (Some "play") level dt
  = NeedsVector.mk
      (hunger needs)
      (thirst needs)
      (energy needs)
      (clamp (fun_ needs + 6 * calculateRechargeMultiplier level * dt) 0 100) /\
  applyRecharge needs None level dt = needs /\
  (forall tag : string,
     tag <> "lake" -> tag <> "field" -> tag <> "barn" -> tag <> "play" ->
     applyRecharge needs (Some tag) level dt = needs).
Proof.
  repeat split.
  intros tag. apply applyRecharge_unrecognized.
Qed.

Lemma applyRecharge_frame_witness :
  applyRecharge (NeedsVector.mk 10 20 30 40) (Some "Lake") 2 0.5
  = NeedsVector.mk 10 20 30 40 /\
  applyRecharge (NeedsVector.mk 10 20 30 40) (Some "") 2 0.5
  = NeedsVector.mk 10 20 30 40.
Proof.
  destruct (applyRecharge_frame (NeedsVector.mk 10 20 30 40) 2 0.5)
    as (_ & _ & _ & _ & _ & Hother).
  split; apply Hother; discriminate.
Defined.

(* ================================================================= *)
(** ** Combined step and net change *)

(** The zone test of [calculateNetNeedChange] and the four tests of
    [applyRecharge] agree: the first adds a recharge for a need exactly
    when the second rewrites that need. *)
Lemma recognized_or_not (s : string) :
  s = "lake" \/ s = "field" \/ s = "barn" \/ s = "play" \/
  (s <> "lake" /\ s <> "field" /\ s <> "barn" /\ s <> "play").
Proof.
  destruct (String.eqb_spec s "lake"); [tauto |].
  destruct (String.eqb_spec s "field"); [tauto |].
  destruct (String.eqb_spec s "barn"); [tauto |].
  destruct (String.eqb_spec s "play"); tauto.
Qed.

Lemma zoneToNeed_unrecognized (s : string) :
  s <> "lake" -> s <> "field" -> s <> "barn" -> s <> "play" ->
  prop s zoneToNeed = None.
Proof.
  intros Hl Hf Hb Hp. unfold zoneToNeed. cbn [prop].
  apply String.eqb_neq in Hl, Hf, Hb, Hp.
  rewrite Hl, Hf, Hb, Hp. reflexivity.
Qed.

Lemma net_change_unrecognized (k : Need) (s : string) (level dt : Q) :
  s <> "lake" -> s <> "field" -> s <> "barn" -> s <> "play" ->
  calculateNetNeedChange (need_name k) (Some s) level dt
  = Some (- need_field k BASE_DRAIN * calculateDrainMultiplier level * dt).
Proof.
  intros Hl Hf Hb Hp. unfold calculateNetNeedChange.
  rewrite get_need_name.
  destruct s as [| a s'] eqn:Es; [reflexivity |].
  cbn [truthy]. rewrite <- Es in *.
  rewrite (zoneToNeed_unrecognized s Hl Hf Hb Hp). reflexivity.
Qed.

(** The net change is a number for each of the four need names. *)
Lemma net_change_defined (k : Need) (zone : option string) (level dt : Q) :
  exists c, calculateNetNeedChange (need_name k) zone level dt = Some c.
Proof.
  destruct zone as [s |]; [| destruct k; eexists; reflexivity].
  destruct (recognized_or_not s) as [-> | [-> | [-> | [-> | (Hl & Hf & Hb & Hp)]]]];
    try (destruct k; eexists; reflexivity).
  eexists. apply net_change_unrecognized; assumption.
Qed.

Ltac clamp_free :=
  repeat match goal with
  | |- context [clamp ?v 0 100] =>
      let E := fresh "E" in
      assert (E : clamp v 0 100 == v)
        by (apply clamp_id; unfold in_range in *; simpl in *; lra);
      revert E; generalize (clamp v 0 100); intros ? E
  end.

(** One case of the comparison, for a fixed need and a zone that is a
    string literal or null: both sides compute, the two clamps are the
    identity under the hypotheses, and the rest is linear arithmetic. *)
Ltac net_change_case Hr :=
  specialize (Hr _ eq_refl); do 2 eexists;
  (split; [reflexivity | split; [reflexivity |]]);
  unfold updateNeeds, in_range in *;
  cbn -[Qplus Qmult Qminus Qopp Qle Qeq Qlt clamp calculateDrainMultiplier
        calculateRechargeMultiplier] in *;
  unfold BASE_RECHARGE_lake_thirst, BASE_RECHARGE_field_hunger,
    BASE_RECHARGE_barn_energy, BASE_RECHARGE_play_fun in *;
  clamp_free; lra.

(** In the exact reading the net change is the step minus the input: when
    the drain of the need stays within [0, 100] before clamping, and the
    input value plus the net change does too, the two clamps of the
    combined step are the identity and the rest is linear arithmetic.  The
    doubles of the code agree with this only up to rounding; what they
    satisfy exactly is stated at the end of the file. *)
Lemma net_change_exact (k : Need) (needs : NeedsVector.t)
  (zone : option string) (level dt : Q) :
  in_range (need_field k needs
            - need_field k BASE_DRAIN * calculateDrainMultiplier level * dt) ->
  (forall c, calculateNetNeedChange (need_name k) zone level dt = Some c ->
             in_range (need_field k needs + c)) ->
  exists c r,
    calculateNetNeedChange (need_name k) zone level dt = Some c /\
    NeedsVector.get (need_name k) (updateNeeds needs zone level dt) = Some r /\
    c == r - need_field k needs.
Proof.
  intros Hd Hr.
  destruct zone as [s |].
  - destruct (recognized_or_not s)
      as [-> | [-> | [-> | [-> | (Hl & Hf & Hb & Hp)]]]].
    1-4: destruct k; net_change_case Hr.
    specialize (Hr _ (net_change_unrecognized k s level dt Hl Hf Hb Hp)).
    exists (- need_field k BASE_DRAIN * calculateDrainMultiplier level * dt).
    exists (need_field k (applyDrain needs level dt)).
    split; [apply net_change_unrecognized; assumption |].
    split.
    + unfold updateNeeds. rewrite applyRecharge_unrecognized by assumption.
      apply get_need_name.
    + rewrite applyDrain_field. unfold in_range in *. clamp_free. lra.
  - destruct k; net_change_case Hr.
Qed.

Lemma net_change_exact_witness :
  exists c r,
    calculateNetNeedChange "thirst" (Some "lake") 2 0.5 = Some c /\
    NeedsVector.get "thirst"
      (updateNeeds (NeedsVector.mk 50 50 50 50) (Some "lake") 2 0.5) = Some r /\
    c == 3 /\ r == 53.
Proof.
  assert (Hd : in_range (need_field Thirst (NeedsVector.mk 50 50 50 50)
                         - need_field Thirst BASE_DRAIN
                           * calculateDrainMultiplier 2 * 0.5)).
  { unfold in_range, calculateDrainMultiplier, DRAIN_GROWTH. simpl. lra. }
  assert (Hr : forall c,
             calculateNetNeedChange (need_name Thirst) (Some "lake") 2 0.5
             = Some c ->
             in_range (need_field Thirst (NeedsVector.mk 50 50 50 50) + c)).
  { intros c Hc. injection Hc as <-.
    unfold in_range, calculateDrainMultiplier, calculateRechargeMultiplier,
      DRAIN_GROWTH, RECHARGE_GROWTH, BASE_RECHARGE_lake_thirst. simpl. lra. }
  destruct (net_change_exact Thirst (NeedsVector.mk 50 50 50 50)
              (Some "lake") 2 0.5 Hd Hr) as (c & r & Hc & Hget & Heq).
  exists c, r. split; [exact Hc |]. split; [exact Hget |].
  injection Hc as <-. injection Hget as <-.
  split; reflexivity.
Defined.

(* ================================================================= *)
(** ** Terminal conditions *)

(** C5.  checkGameOver is true exactly when at least one of the four
    fields is <= 0, and checkLevelComplete is true exactly when the
    remaining level time is <= 0. *)
Theorem terminal_conditions (needs : NeedsVector.t) (levelTime : Q) :
  (checkGameOver needs = true <->
   hunger needs <= 0 \/ thirst needs <= 0 \/
   energy needs <= 0 \/ fun_ needs <= 0) /\
  (checkLevelComplete levelTime = true <-> levelTime <= 0).
Proof.
  split.
  - unfold checkGameOver, NeedsVector.values. cbn [existsb].
    rewrite !orb_true_iff, !Qle_bool_iff. intuition discriminate.
  - unfold checkLevelComplete. apply Qle_bool_iff.
Qed.

Example game_over_one_need :
  checkGameOver (NeedsVector.mk 0 100 100 100) = true.
Proof. reflexivity. Qed.

Example game_over_barely_alive :
  checkGameOver (NeedsVector.mk 0.1 0.1 0.1 0.1) = false.
Proof. reflexivity. Qed.

Example level_complete_examples :
  checkLevelComplete 0 = true /\ checkLevelComplete (-5) = true /\
  checkLevelComplete 0.1 = false.
Proof. repeat split. Qed.

(* ================================================================= *)
(** ** Level transition *)

(** C6.  createNextLevelState returns level + 1, the four needs at 100,
    levelTime 30, no status, eaten false, the monster at
    {x: -20, y: 50, chomp: false}, and the unicorn's x and y of the
    input state. *)
Theorem createNextLevelState_spec (s : GameState.t) :
  let s' := createNextLevelState s in
  GameState.level s' = GameState.level s + 1 /\
  GameState.needs s' = NeedsVector.mk 100 100 100 100 /\
  GameState.levelTime s' = 30 /\
  GameState.status s' = None /\
  GameState.eaten s' = false /\
  GameState.monster s' = MonsterState.mk (-20) 50 false /\
  GameState.x s' = GameState.x s /\
  GameState.y s' = GameState.y s.
Proof. repeat split. Qed.

Example next_level_scenario :
  createNextLevelState
    (GameState.mk 75 80 (NeedsVector.mk 20 30 40 50) 3 0 (Some "nextlevel")
       true (MonsterState.mk 50 50 true))
  = GameState.mk 75 80 (NeedsVector.mk 100 100 100 100) (3 + 1) 30 None
      false (MonsterState.mk (-20) 50 false).
Proof. reflexivity. Qed.

(** C7 (as the code has it).  The monster of the level-transition reset
    has x = -20, chomp = false and y = 50, whatever the unicorn's
    vertical position is; its y is the unicorn's y only when that is 50. *)
Theorem createNextLevelState_monster (s : GameState.t) :
  let m := GameState.monster (createNextLevelState s) in
  MonsterState.x m = -20 /\
  MonsterState.chomp m = false /\
  MonsterState.y m = 50 /\
  (MonsterState.y m == GameState.y (createNextLevelState s)
   <-> GameState.y s == 50).
Proof.
  simpl. repeat split; intros H; symmetry; exact H.
Qed.

(** C7 as stated fails on the transition scenario of the test suite: the
    unicorn is at y = 80 and the monster is reset to y = 50. *)
Lemma next_level_monster_not_at_unicorn :
  let s := GameState.mk 75 80 (NeedsVector.mk 20 30 40 50) 3 0 None true
             (MonsterState.mk 50 50 true) in
  ~ MonsterState.y (GameState.monster (createNextLevelState s))
    == GameState.y s.
Proof. simpl. intros H. discriminate H. Qed.

(* ================================================================= *)
(** ** Game-over transition *)

(** C8.  createMonsterChaseState returns eaten = true and the monster
    {x: -20, y: the y of the input state, chomp: false}; needs, level,
    levelTime, status and the unicorn's position are those of the input
    state.  Nothing is assumed of the input: the game-over condition is
    not consulted. *)
Theorem createMonsterChaseState_spec (s : GameState.t) :
  let s' := createMonsterChaseState s in
  GameState.eaten s' = true /\
  GameState.monster s' = MonsterState.mk (-20) (GameState.y s) false /\
  GameState.needs s' = GameState.needs s /\
  GameState.level s' = GameState.level s /\
  GameState.levelTime s' = GameState.levelTime s /\
  GameState.status s' = GameState.status s /\
  GameState.x s' = GameState.x s /\
  GameState.y s' = GameState.y s.
Proof. repeat split. Qed.

(** The transition applies to a state that is not game over as well. *)
Example chase_without_game_over :
  checkGameOver (GameState.needs createInitialState) = false /\
  GameState.eaten (createMonsterChaseState createInitialState) = true /\
  GameState.monster (createMonsterChaseState createInitialState)
  = MonsterState.mk (-20) 25 false.
Proof. repeat split. Qed.

(* ================================================================= *)
(** ** Initial state *)

(** C10.  createInitialState is the state with x = 15, y = 25, the four
    needs at 100, level 1, levelTime 30, no status, eaten false and the
    monster at {x: -20, y: 50, chomp: false}; it is neither game over nor
    level complete. *)
Theorem createInitialState_spec :
  createInitialState
  = GameState.mk 15 25 (NeedsVector.mk 100 100 100 100) 1 30 None false
      (MonsterState.mk (-20) 50 false) /\
  checkGameOver (GameState.needs createInitialState) = false /\
  checkLevelComplete (GameState.levelTime createInitialState) = false.
Proof. repeat split. Qed.

(* ================================================================= *)
(** ** More on the clamping primitive

    [clamp] takes its bounds as arguments; the lemmas above fix them to
    0 and 100, these hold for any bounds. *)

(** The four ways [Math.max(lo, Math.min(hi, v))] can go. *)
Lemma clamp_spec (v lo hi : Q) :
  (lo <= v /\ v <= hi /\ clamp v lo hi == v) \/
  (v < lo /\ v <= hi /\ clamp v lo hi == lo) \/
  (hi < v /\ lo <= hi /\ clamp v lo hi == hi) \/
  (hi < v /\ hi < lo /\ clamp v lo hi == lo).
Proof.
  unfold clamp.
  destruct (Q.min_spec hi v) as [Hm | Hm];
    revert Hm; generalize (Qmin hi v); intros m Hm;
    destruct (Q.max_spec lo m) as [Hc | Hc];
    revert Hc; generalize (Qmax lo m); intros c Hc;
    destruct (Qlt_le_dec v lo); destruct (Qlt_le_dec hi lo);
    first [ left; repeat split; lra
          | right; left; repeat split; lra
          | right; right; left; repeat split; lra
          | right; right; right; repeat split; lra ].
Qed.

(** Replace a [clamp] of the goal by a variable that satisfies [clamp_spec]. *)
Ltac clamp_split v lo hi :=
  let H := fresh "Hclamp" in
  pose proof (clamp_spec v lo hi) as H;
  revert H; generalize (clamp v lo hi); intros ? H;
  destruct H as [H | [H | [H | H]]].

Ltac clamp_split_all :=
  repeat match goal with
  | |- context [clamp ?v ?lo ?hi] => clamp_split v lo hi
  end.

(** X1.  With bounds in order, the clamped value lies between them, and it
    is the value itself exactly when the value lies between them. *)
Theorem clamp_within_bounds (v lo hi : Q) :
  lo <= hi ->
  lo <= clamp v lo hi /\ clamp v lo hi <= hi /\
  (clamp v lo hi == v <-> lo <= v /\ v <= hi).
Proof.
  intros Hb. clamp_split v lo hi; repeat split; intros; lra.
Qed.

Lemma clamp_within_bounds_witness :
  -10 <= 10 /\
  -10 <= clamp 42 (-10) 10 /\ clamp 42 (-10) 10 <= 10 /\
  ~ clamp 42 (-10) 10 == 42.
Proof.
  assert (Hb : -10 <= 10) by lra.
  destruct (clamp_within_bounds 42 (-10) 10 Hb) as (Hlo & Hhi & Hfix).
  split; [exact Hb |]. split; [exact Hlo |]. split; [exact Hhi |].
  intros Heq. apply Hfix in Heq. lra.
Defined.

(** X2.  With the bounds the wrong way round the result is the lower
    bound argument, whatever the value. *)
Theorem clamp_inverted_bounds (v lo hi : Q) :
  hi <= lo -> clamp v lo hi == lo.
Proof.
  intros Hb. clamp_split v lo hi; lra.
Qed.

Lemma clamp_inverted_bounds_witness :
  0 <= 100 /\ clamp 50 100 0 == 100 /\ clamp (-7) 100 0 == 100.
Proof.
  assert (Hb : 0 <= 100) by lra.
  split; [exact Hb |].
  split; apply (clamp_inverted_bounds _ 100 0 Hb).
Defined.

(** X3.  Clamping twice with the same bounds is clamping once, for any
    bounds, in order or not. *)
Theorem clamp_idempotent_any (v lo hi : Q) :
  clamp (clamp v lo hi) lo hi == clamp v lo hi.
Proof.
  clamp_split v lo hi;
    match goal with |- clamp ?c _ _ == _ => clamp_split c lo hi end; lra.
Qed.

(** X4.  [clamp] is monotone in the value, for any bounds. *)
Theorem clamp_monotone_any (v w lo hi : Q) :
  v <= w -> clamp v lo hi <= clamp w lo hi.
Proof.
  intros Hvw. unfold clamp.
  apply Q.max_le_compat_l, Q.min_le_compat_l, Hvw.
Qed.

Lemma clamp_monotone_any_witness :
  3 <= 250 /\ clamp 3 5 200 <= clamp 250 5 200.
Proof.
  assert (H : 3 <= 250) by lra.
  split; [exact H | exact (clamp_monotone_any 3 250 5 200 H)].
Defined.

(* ================================================================= *)
(** ** Positions *)

Lemma isValidPosition_iff (x y : Q) :
  isValidPosition x y = true <-> in_range x /\ in_range y.
Proof.
  unfold isValidPosition, in_range.
  rewrite !andb_true_iff, !Qle_bool_iff. tauto.
Qed.

(** X5.  A position is valid exactly when clampPosition returns it as it
    is; and the position that clampPosition returns is always valid. *)
Theorem valid_iff_clamp_fixes (x y : Q) :
  (isValidPosition x y = true <->
   fst (clampPosition x y) == x /\ snd (clampPosition x y) == y) /\
  isValidPosition (fst (clampPosition x y)) (snd (clampPosition x y)) = true.
Proof.
  rewrite !isValidPosition_iff. unfold in_range, clampPosition; simpl.
  clamp_split x 0 100; clamp_split y 0 100; repeat split; intros; lra.
Qed.

(* ================================================================= *)
(** ** The level timer *)

Lemma run_timer_le (ticks : list (option string * Q)) :
  forward ticks -> forall levelTime, run_timer ticks levelTime <= levelTime.
Proof.
  induction 1 as [| [zone dt] rest Hdt _ IH]; intros levelTime.
  - simpl. lra.
  - cbn [run_timer]. simpl in Hdt.
    specialize (IH (updateLevelTimer levelTime dt)).
    unfold updateLevelTimer in *. lra.
Qed.

(** X6.  The timer is not clamped.  After one tick the level is complete
    exactly when levelTime <= dt, and the timer is below 0 when
    levelTime < dt; along a run of ticks with time deltas >= 0 the timer
    never goes up. *)
Theorem timer_after_ticks (ticks : list (option string * Q))
  (levelTime dt : Q) :
  (checkLevelComplete (updateLevelTimer levelTime dt) = true
   <-> levelTime <= dt) /\
  (levelTime < dt -> updateLevelTimer levelTime dt < 0) /\
  (forward ticks -> run_timer ticks levelTime <= levelTime).
Proof.
  split; [| split].
  - unfold checkLevelComplete, updateLevelTimer. rewrite Qle_bool_iff.
    split; intros; lra.
  - unfold updateLevelTimer. intros; lra.
  - intros Hfw. apply run_timer_le, Hfw.
Qed.

Lemma timer_after_ticks_witness :
  let ticks := [(None, 0.1); (Some "lake", 0); (None, 12.5)] in
  forward ticks /\ 3 < 4.5 /\
  updateLevelTimer 3 4.5 < 0 /\
  run_timer ticks LEVEL_TIME <= LEVEL_TIME.
Proof.
  intros ticks.
  assert (Hfw : forward ticks) by (repeat constructor; simpl; lra).
  assert (Hlt : 3 < 4.5) by lra.
  destruct (timer_after_ticks ticks LEVEL_TIME 4.5) as (_ & _ & Hrun).
  destruct (timer_after_ticks ticks 3 4.5) as (_ & Hneg & _).
  split; [exact Hfw |]. split; [exact Hlt |].
  split; [exact (Hneg Hlt) | exact (Hrun Hfw)].
Defined.

Example timer_goes_negative :
  run_timer [(None, 20); (Some "lake", 15)] LEVEL_TIME == -5.
Proof. reflexivity. Qed.

(* ================================================================= *)
(** ** Sequences of transitions *)

Lemma next_level_iter_frame (n : nat) (s : GameState.t) :
  GameState.x (Nat.iter n createNextLevelState s) = GameState.x s /\
  GameState.y (Nat.iter n createNextLevelState s) = GameState.y s /\
  GameState.level s <= GameState.level (Nat.iter n createNextLevelState s).
Proof.
  induction n as [| n (IHx & IHy & IHl)].
  - simpl. repeat split. lra.
  - change (Nat.iter (S n) createNextLevelState s)
      with (createNextLevelState (Nat.iter n createNextLevelState s)).
    cbn [createNextLevelState GameState.x GameState.y GameState.level].
    repeat split; [exact IHx | exact IHy |]. lra.
Qed.

(** X7.  After n level transitions in a row the unicorn is where it was
    and the level is not below the level before; and as soon as n >= 1
    all the other fields are the reset values, whatever they were
    before. *)
Theorem next_level_repeated (n : nat) (s : GameState.t) :
  let s' := Nat.iter n createNextLevelState s in
  GameState.level s <= GameState.level s' /\
  GameState.x s' = GameState.x s /\
  GameState.y s' = GameState.y s /\
  ((0 < n)%nat ->
   GameState.needs s' = NeedsVector.mk 100 100 100 100 /\
   GameState.levelTime s' = LEVEL_TIME /\
   GameState.status s' = None /\
   GameState.eaten s' = false /\
   GameState.monster s' = MonsterState.mk (-20) 50 false).
Proof.
  destruct (next_level_iter_frame n s) as (Hx & Hy & Hl).
  cbv zeta. repeat split; try assumption;
    destruct n as [| n]; try (exfalso; apply (Nat.lt_irrefl 0); assumption);
    reflexivity.
Qed.

Lemma next_level_repeated_witness :
  let s := GameState.mk 75 80 (NeedsVector.mk 20 30 40 50) 1 0
             (Some "nextlevel") true (MonsterState.mk 50 80 true) in
  (0 < 3)%nat /\
  GameState.y (Nat.iter 3 createNextLevelState s) = 80 /\
  GameState.needs (Nat.iter 3 createNextLevelState s)
  = NeedsVector.mk 100 100 100 100 /\
  GameState.monster (Nat.iter 3 createNextLevelState s)
  = MonsterState.mk (-20) 50 false.
Proof.
  intros s.
  assert (H : (0 < 3)%nat) by (repeat constructor).
  destruct (next_level_repeated 3 s) as (_ & _ & Hy & Hreset).
  destruct (Hreset H) as (Hneeds & _ & _ & _ & Hmonster).
  split; [exact H |].
  split; [exact Hy |].
  split; [exact Hneeds | exact Hmonster].
Defined.

(** X8.  A level transition discards what the game-over transition set:
    the next level reached from the chase state is the next level reached
    from the state itself.  The game-over transition is idempotent, and it
    changes neither of the two terminal conditions. *)
Theorem chase_then_next_level (s : GameState.t) :
  createNextLevelState (createMonsterChaseState s) = createNextLevelState s /\
  createMonsterChaseState (createMonsterChaseState s)
  = createMonsterChaseState s /\
  checkGameOver (GameState.needs (createMonsterChaseState s))
  = checkGameOver (GameState.needs s) /\
  checkLevelComplete (GameState.levelTime (createMonsterChaseState s))
  = checkLevelComplete (GameState.levelTime s).
Proof. repeat split. Qed.

(* ================================================================= *)
(** ** More on the net change *)

Lemma zone_feeds_unrecognized (s : string) (k : Need) :
  s <> "lake" -> s <> "field" -> s <> "barn" -> s <> "play" ->
  zone_feeds (Some s) k = false.
Proof.
  intros Hl Hf Hb Hp. unfold zone_feeds.
  rewrite (zoneToNeed_unrecognized s Hl Hf Hb Hp). reflexivity.
Qed.

(** Case analysis on a need and a zone: the zone is null, one of the four
    tags, or a string that is none of them. *)
Ltac need_zone_cases k zone :=
  let s := fresh "s" in
  let Hl := fresh "Hl" in let Hf := fresh "Hf" in
  let Hb := fresh "Hb" in let Hp := fresh "Hp" in
  destruct zone as [s |];
  [ destruct (recognized_or_not s)
      as [-> | [-> | [-> | [-> | (Hl & Hf & Hb & Hp)]]]];
    [ destruct k | destruct k | destruct k | destruct k | ]
  | destruct k ].

Ltac unfold_rates :=
  unfold calculateDrainMultiplier, calculateRechargeMultiplier,
    DRAIN_GROWTH, RECHARGE_GROWTH, BASE_RECHARGE_lake_thirst,
    BASE_RECHARGE_field_hunger, BASE_RECHARGE_barn_energy,
    BASE_RECHARGE_play_fun in *.

(** X11.  At every level from 1 to 1000000 and for 0 < dt <= 1000000 a
    need gains in the zone that feeds it and loses everywhere else: the
    growing drain never overtakes the recharge.  (The recharge rate is at
    least 2.25 times the drain rate at every level, which leaves the signs
    as they are under the rounding of the two products and of their
    difference; the bounds keep the products finite.) *)
Theorem net_change_sign (k : Need) (zone : option string) (level dt : Q) :
  1 <= level -> level <= 1000000 -> 0 < dt -> dt <= 1000000 ->
  exists c,
    calculateNetNeedChange (need_name k) zone level dt = Some c /\
    (zone_feeds zone k = true -> 0 < c) /\
    (zone_feeds zone k = false -> c < 0).
Proof.
  intros Hlevel _ Hdt _.
  assert (Hld : 0 <= (level - 1) * dt)
    by (apply Qmult_le_0_compat; lra).
  need_zone_cases k zone;
    try (eexists; split; [reflexivity |];
         split; intros Hfeed; try discriminate Hfeed; unfold_rates;
         simpl; lra).
  eexists. split; [apply net_change_unrecognized; assumption |].
  rewrite (zone_feeds_unrecognized s k) by assumption.
  split; intros Hfeed; try discriminate Hfeed.
  rewrite base_drain_rate. unfold_rates. lra.
Qed.

Lemma net_change_sign_witness :
  1 <= 50 /\ 50 <= 1000000 /\ 0 < 0.1 /\ 0.1 <= 1000000 /\
  (exists c,
     calculateNetNeedChange "thirst" (Some "lake") 50 0.1 = Some c /\ 0 < c) /\
  (exists c,
     calculateNetNeedChange "hunger" (Some "lake") 50 0.1 = Some c /\ c < 0).
Proof.
  assert (Hl : 1 <= 50) by lra.
  assert (Hu : 50 <= 1000000) by lra.
  assert (Hdt : 0 < 0.1) by lra.
  assert (Hdu : 0.1 <= 1000000) by lra.
  repeat (split; [assumption |]).
  split.
  - destruct (net_change_sign Thirst (Some "lake") 50 0.1 Hl Hu Hdt Hdu)
      as (c & Hc & Hgain & _).
    exists c. split; [exact Hc | apply Hgain; reflexivity].
  - destruct (net_change_sign Hunger (Some "lake") 50 0.1 Hl Hu Hdt Hdu)
      as (c & Hc & _ & Hloss).
    exists c. split; [exact Hc | apply Hloss; reflexivity].
Defined.

(* ================================================================= *)
(** ** The two tables and the branches of applyRecharge *)

(** What applyRecharge does to one need, read through the tables of
    calculateNetNeedChange. *)
Lemma applyRecharge_field (k : Need) (needs : NeedsVector.t)
  (zone : option string) (level dt : Q) :
  (zone_feeds zone k = false /\
   need_field k (applyRecharge needs zone level dt) = need_field k needs) \/
  (zone_feeds zone k = true /\
   exists s rate,
     zone = Some s /\
     prop s BASE_RECHARGE = Some [(need_name k, rate)] /\
     (rate = 6 \/ rate = 8) /\
     need_field k (applyRecharge needs zone level dt)
     = clamp (need_field k needs
              + rate * calculateRechargeMultiplier level * dt) 0 100).
Proof.
  need_zone_cases k zone;
    try (left; split; reflexivity);
    try (right; split; [reflexivity |]; do 2 eexists;
         split; [reflexivity |]; split; [reflexivity |];
         split; [| reflexivity]; first [left; reflexivity | right; reflexivity]).
  left. split; [apply zone_feeds_unrecognized; assumption |].
  rewrite applyRecharge_unrecognized by assumption. reflexivity.
Qed.

(** X12.  The tables zoneToNeed and BASE_RECHARGE of calculateNetNeedChange
    agree with the four branches of applyRecharge: applyRecharge leaves a
    need as it is unless zoneToNeed maps the zone to it, and then
    BASE_RECHARGE[zone] has that need as its only key and its value is the
    rate that applyRecharge adds. *)
Theorem recharge_tables_agree (k : Need) (needs : NeedsVector.t)
  (zone : option string) (level dt : Q) :
  (zone_feeds zone k = false ->
   need_field k (applyRecharge needs zone level dt) = need_field k needs) /\
  (zone_feeds zone k = true ->
   exists s rate,
     zone = Some s /\
     prop s BASE_RECHARGE = Some [(need_name k, rate)] /\
     need_field k (applyRecharge needs zone level dt)
     = clamp (need_field k needs
              + rate * calculateRechargeMultiplier level * dt) 0 100).
Proof.
  destruct (applyRecharge_field k needs zone level dt)
    as [(Hf & Hsame) | (Hf & s & rate & Hz & Hp & _ & Hv)];
    rewrite Hf; split; intros H; try discriminate H.
  - exact Hsame.
  - exists s, rate. repeat split; assumption.
Qed.

Lemma recharge_tables_agree_witness :
  zone_feeds (Some "barn") Energy = true /\
  zone_feeds (Some "barn") Fun = false /\
  (exists s rate,
     Some "barn" = Some s /\
     prop s BASE_RECHARGE = Some [("energy", rate)] /\
     need_field Energy (applyRecharge (NeedsVector.mk 10 20 30 40)
                          (Some "barn") 1 1)
     = clamp (30 + rate * calculateRechargeMultiplier 1 * 1) 0 100) /\
  need_field Fun (applyRecharge (NeedsVector.mk 10 20 30 40) (Some "barn") 1 1)
  = 40.
Proof.
  split; [reflexivity |]. split; [reflexivity |].
  split.
  - apply (recharge_tables_agree Energy (NeedsVector.mk 10 20 30 40)
             (Some "barn") 1 1). reflexivity.
  - apply (recharge_tables_agree Fun (NeedsVector.mk 10 20 30 40)
             (Some "barn") 1 1). reflexivity.
Defined.

(** X13.  Each recognized zone feeds exactly one need, and each need is
    fed by exactly one zone; null and any other string feed none. *)
Theorem zones_and_needs_one_to_one :
  (forall s, In s ["lake"; "field"; "barn"; "play"] ->
     exists k, forall k', zone_feeds (Some s) k' = true <-> k' = k) /\
  (forall k, exists s,
     In s ["lake"; "field"; "barn"; "play"] /\
     forall zone, zone_feeds zone k = true <-> zone = Some s) /\
  (forall s k, ~ In s ["lake"; "field"; "barn"; "play"] ->
     zone_feeds (Some s) k = false) /\
  (forall k, zone_feeds None k = false).
Proof.
  split; [| split; [| split]].
  - intros s [<- | [<- | [<- | [<- | []]]]];
      [exists Thirst | exists Hunger | exists Energy | exists Fun];
      intros k'; destruct k'; split; intros H;
      first [reflexivity | discriminate H].
  - assert (Hcase : forall z k, zone_feeds z k = true ->
              match k with
              | Hunger => z = Some "field" | Thirst => z = Some "lake"
              | Energy => z = Some "barn" | Fun => z = Some "play"
              end).
    { intros z k H. need_zone_cases k z;
        first [ reflexivity | discriminate H
              | rewrite zone_feeds_unrecognized in H by assumption;
                discriminate H ]. }
    intros k.
    destruct k;
      [exists "field" | exists "lake" | exists "barn" | exists "play"];
      (split; [simpl; tauto |]); intros zone; split;
      first [ apply Hcase | intros ->; reflexivity ].
  - intros s k Hnot. apply zone_feeds_unrecognized;
      intros ->; apply Hnot; simpl; tauto.
  - reflexivity.
Qed.

(* ================================================================= *)
(** ** How the needs move *)

Lemma checkGameOver_iff (needs : NeedsVector.t) :
  checkGameOver needs = true <-> exists k, need_field k needs <= 0.
Proof.
  unfold checkGameOver, NeedsVector.values. cbn [existsb].
  rewrite !orb_true_iff, !Qle_bool_iff. split.
  - intros [H | [H | [H | [H | H]]]];
      [ exists Hunger | exists Thirst | exists Energy | exists Fun
      | discriminate H ]; exact H.
  - intros [k H]. destruct k; simpl in H; tauto.
Qed.

(** X14.  The drain ends the game exactly when some need is at most the
    amount drained, drainMultiplier(level) * dt; this holds for every
    input, in range or not. *)
Theorem game_over_after_drain (needs : NeedsVector.t) (level dt : Q) :
  checkGameOver (applyDrain needs level dt) = true
  <-> exists k, need_field k needs <= calculateDrainMultiplier level * dt.
Proof.
  rewrite checkGameOver_iff.
  split; intros [k H]; exists k; revert H;
    rewrite applyDrain_field, base_drain_rate;
    match goal with |- context [clamp ?v 0 100] => clamp_split v 0 100 end;
    intros; lra.
Qed.

(** The drain of one need, as a function of the amount drained. *)
Lemma applyDrain_field_amount (k : Need) (needs : NeedsVector.t)
  (level dt : Q) :
  need_field k (applyDrain needs level dt)
  == clamp (need_field k needs - calculateDrainMultiplier level * dt) 0 100.
Proof.
  rewrite applyDrain_field, base_drain_rate.
  match goal with |- clamp ?v 0 100 == clamp ?w 0 100 =>
    clamp_split v 0 100; clamp_split w 0 100 end; lra.
Qed.

(** X16.  The drain is monotone: with dt >= 0, a higher level leaves no
    more of any need, and with the same level and dt, a larger input
    leaves no less. *)
Theorem applyDrain_monotone (needs needs' : NeedsVector.t)
  (level level' dt : Q) (k : Need) :
  0 <= dt ->
  (level <= level' ->
   need_field k (applyDrain needs level' dt)
   <= need_field k (applyDrain needs level dt)) /\
  (need_field k needs <= need_field k needs' ->
   need_field k (applyDrain needs level dt)
   <= need_field k (applyDrain needs' level dt)).
Proof.
  intros Hdt. rewrite !applyDrain_field, !base_drain_rate. split; intros H.
  - apply clamp_monotone. unfold calculateDrainMultiplier, DRAIN_GROWTH.
    assert (0 <= (level' - level) * dt) by (apply Qmult_le_0_compat; lra).
    lra.
  - apply clamp_monotone. lra.
Qed.

Lemma applyDrain_monotone_witness :
  let needs := NeedsVector.mk 100 100 100 100 in
  0 <= 0.1 /\ 1 <= 5 /\
  need_field Hunger (applyDrain needs 5 0.1)
  <= need_field Hunger (applyDrain needs 1 0.1).
Proof.
  intros needs.
  assert (Hdt : 0 <= 0.1) by lra.
  assert (Hl : 1 <= 5) by lra.
  split; [exact Hdt |]. split; [exact Hl |].
  destruct (applyDrain_monotone needs needs 1 5 0.1 Hunger Hdt) as (Hlevel & _).
  exact (Hlevel Hl).
Defined.

(** X17.  The recharge never lowers a need that is at most 100, when the
    recharge multiplier and dt are >= 0 and the level is at most 1e300
    (the bound keeps rate * rechargeMultiplier(level) finite in double
    arithmetic, so that the amount added is a number). *)
Theorem applyRecharge_never_lowers (needs : NeedsVector.t)
  (zone : option string) (level dt : Q) (k : Need) :
  need_field k needs <= 100 ->
  0 <= calculateRechargeMultiplier level ->
  level <= 1e300 ->
  0 <= dt ->
  need_field k needs <= need_field k (applyRecharge needs zone level dt).
Proof.
  intros Hk Hm _ Hdt.
  assert (Hmd : 0 <= calculateRechargeMultiplier level * dt)
    by (apply Qmult_le_0_compat; assumption).
  destruct (applyRecharge_field k needs zone level dt)
    as [(_ & ->) | (_ & s & rate & _ & _ & Hrate & ->)]; [lra |].
  destruct Hrate as [-> | ->]; clamp_split_all; lra.
Qed.

Lemma applyRecharge_never_lowers_witness :
  let needs := NeedsVector.mk 10 99 (-3) 100 in
  need_field Thirst needs <= 100 /\
  0 <= calculateRechargeMultiplier 2 /\ 2 <= 1e300 /\ 0 <= 1 /\
  need_field Thirst needs
  <= need_field Thirst (applyRecharge needs (Some "lake") 2 1).
Proof.
  intros needs.
  assert (Hk : need_field Thirst needs <= 100) by (simpl; lra).
  assert (Hm : 0 <= calculateRechargeMultiplier 2)
    by (unfold calculateRechargeMultiplier, RECHARGE_GROWTH; lra).
  assert (Hl : 2 <= 1e300) by (vm_compute; discriminate).
  assert (Hdt : 0 <= 1) by lra.
  repeat (split; [assumption |]).
  exact (applyRecharge_never_lowers needs (Some "lake") 2 1 Thirst
           Hk Hm Hl Hdt).
Defined.

(** X19.  A tick of no duration changes nothing but the range: with
    dt = 0 and a level between -1e300 and 1e300 (so that no product
    overflows in double arithmetic) the combined step returns each need
    clamped to [0, 100], in any zone; needs in range come back equal. *)
Theorem updateNeeds_zero_tick (k : Need) (needs : NeedsVector.t)
  (zone : option string) (level : Q) :
  -1e300 <= level -> level <= 1e300 ->
  need_field k (updateNeeds needs zone level 0)
  == clamp (need_field k needs) 0 100 /\
  (in_range (need_field k needs) ->
   need_field k (updateNeeds needs zone level 0) == need_field k needs).
Proof.
  intros _ _.
  pose proof (applyDrain_field_amount k needs level 0) as Edrain.
  unfold updateNeeds, in_range.
  destruct (applyRecharge_field k (applyDrain needs level 0) zone level 0)
    as [(_ & ->) | (_ & s & rate & _ & _ & _ & ->)];
    revert Edrain; generalize (need_field k (applyDrain needs level 0));
    intros q; clamp_split_all; intros; split; intros; lra.
Qed.

Lemma updateNeeds_zero_tick_witness :
  -1e300 <= 7 /\ 7 <= 1e300 /\
  need_field Thirst
    (updateNeeds (NeedsVector.mk 150 42 (-3) 0) (Some "lake") 7 0) == 42 /\
  need_field Hunger
    (updateNeeds (NeedsVector.mk 150 42 (-3) 0) (Some "lake") 7 0) == 100.
Proof.
  assert (Hlo : -1e300 <= 7) by (vm_compute; discriminate).
  assert (Hhi : 7 <= 1e300) by (vm_compute; discriminate).
  split; [exact Hlo |]. split; [exact Hhi |].
  destruct (updateNeeds_zero_tick Thirst (NeedsVector.mk 150 42 (-3) 0)
              (Some "lake") 7 Hlo Hhi) as (_ & Hsame).
  destruct (updateNeeds_zero_tick Hunger (NeedsVector.mk 150 42 (-3) 0)
              (Some "lake") 7 Hlo Hhi) as (Hclamp & _).
  split.
  - apply Hsame. unfold in_range; simpl; lra.
  - rewrite Hclamp. reflexivity.
Defined.

(* ================================================================= *)
(** ** Zone display *)

Lemma displays_unrecognized (s : string) :
  s <> "lake" -> s <> "field" -> s <> "barn" -> s <> "play" ->
  prop s displays = None.
Proof.
  intros Hl Hf Hb Hp. unfold displays. cbn [prop].
  apply String.eqb_neq in Hl, Hf, Hb, Hp.
  rewrite Hl, Hf, Hb, Hp. reflexivity.
Qed.

Lemma getZoneDisplay_label (inherited : string -> bool)
  (zone : option string) (l : string) :
  getZoneDisplay inherited zone = Label l ->
  l <> "" /\
  ((zone = Some "lake" /\ prop "lake" displays = Some l) \/
   (zone = Some "field" /\ prop "field" displays = Some l) \/
   (zone = Some "barn" /\ prop "barn" displays = Some l) \/
   (zone = Some "play" /\ prop "play" displays = Some l)).
Proof.
  intros H.
  assert (Hmiss : forall key,
            key <> "lake" -> key <> "field" -> key <> "barn" ->
            key <> "play" ->
            (if inherited key then Inherited key else NoDisplay) <> Label l)
    by (intros key _ _ _ _; destruct (inherited key); discriminate).
  destruct zone as [s |].
  - destruct (recognized_or_not s)
      as [-> | [-> | [-> | [-> | (Hl & Hf & Hb & Hp)]]]].
    1-4: injection H as <-; split; [discriminate | tauto].
    unfold getZoneDisplay in H. cbn [property_key] in H.
    rewrite (displays_unrecognized s Hl Hf Hb Hp) in H.
    exfalso. exact (Hmiss s Hl Hf Hb Hp H).
  - exfalso. unfold getZoneDisplay in H. cbn in H.
    revert H. apply Hmiss; discriminate.
Qed.

(** X23.  getZoneDisplay returns a label for each of the four zone tags,
    never the empty string, and the label tells the zone: two zones with
    the same label are the same zone.  For null and for a string that is
    none of the four tags the result is null, unless the string names a
    property that every object inherits, and then it is that property. *)
Theorem getZoneDisplay_spec (inherited : string -> bool) :
  (forall s, In s ["lake"; "field"; "barn"; "play"] ->
     exists l, getZoneDisplay inherited (Some s) = Label l /\ l <> "") /\
  (forall z1 z2 l,
     getZoneDisplay inherited z1 = Label l ->
     getZoneDisplay inherited z2 = Label l -> z1 = z2) /\
  (forall zone,
     ~ In (property_key zone) ["lake"; "field"; "barn"; "play"] ->
     getZoneDisplay inherited zone
     = if inherited (property_key zone)
       then Inherited (property_key zone) else NoDisplay) /\
  (forall zone, getZoneDisplay inherited zone <> Label "").
Proof.
  split; [| split; [| split]].
  - intros s [<- | [<- | [<- | [<- | []]]]];
      eexists; (split; [reflexivity | discriminate]).
  - intros z1 z2 l H1 H2.
    apply getZoneDisplay_label in H1, H2.
    destruct H1 as (_ & [(-> & E1) | [(-> & E1) | [(-> & E1) | (-> & E1)]]]);
      destruct H2 as (_ & [(-> & E2) | [(-> & E2) | [(-> & E2) | (-> & E2)]]]);
      first [ reflexivity | rewrite <- E1 in E2; discriminate E2 ].
  - intros zone Hnot. unfold getZoneDisplay. cbv zeta.
    rewrite displays_unrecognized; [reflexivity | | | |];
      intros E; apply Hnot; rewrite E; simpl; tauto.
  - intros zone H. apply getZoneDisplay_label in H. destruct H as [H _].
    apply H. reflexivity.
Qed.

Example zone_display_examples :
  let own_only := fun _ : string => false in
  getZoneDisplay own_only (Some "invalid") = NoDisplay /\
  getZoneDisplay own_only None = NoDisplay /\
  getZoneDisplay own_only (Some "Lake") = NoDisplay /\
  getZoneDisplay (String.eqb "toString") (Some "toString")
  = Inherited "toString".
Proof. repeat split. Qed.

(* ================================================================= *)
(** ** The double reading on the examples of the test suite *)

Example double_literals :
  Double.lit 0.80 = S754_finite false 7205759403792794 (-53) /\
  Double.lit 0.30 = S754_finite false 5404319552844595 (-54) /\
  Double.lit 100 = S754_finite false 7036874417766400 (-46) /\
  Double.lit 0 = S754_zero false.
Proof. vm_compute. repeat split. Qed.

Example double_multipliers :
  Double.calculateDrainMultiplier (Double.lit 2) = Double.lit 1.8 /\
  Double.calculateDrainMultiplier (Double.lit 3) = Double.lit 2.6 /\
  Double.calculateDrainMultiplier (Double.lit 4)
  = Double.lit 3.4000000000000004 /\
  Double.calculateRechargeMultiplier (Double.lit 2) = Double.lit 1.3.
Proof. vm_compute. repeat split. Qed.

Example double_lake_tick :
  let r := Double.updateNeeds
             (Double.NeedsVector.mk (Double.lit 50) (Double.lit 50)
                (Double.lit 50) (Double.lit 50))
             (Some "lake") (Double.lit 1) (Double.lit 0.1) in
  Double.NeedsVector.hunger r = Double.lit 49.9 /\
  Double.ltb (Double.lit 50) (Double.NeedsVector.thirst r) = true.
Proof. vm_compute. repeat split. Qed.

Example double_drain_floor :
  Double.applyDrain
    (Double.NeedsVector.mk (Double.lit 0.05) (Double.lit 0.05)
       (Double.lit 0.05) (Double.lit 0.05))
    (Double.lit 10) (Double.lit 1.0)
  = Double.NeedsVector.mk (Double.lit 0) (Double.lit 0)
      (Double.lit 0) (Double.lit 0).
Proof. vm_compute. reflexivity. Qed.

(* ================================================================= *)
(** ** The range of the needs, in double arithmetic *)

Lemma tick_is_numeric_spec (level dt : Double.number) :
  Double.tick_is_numeric level dt = true ->
  Double.is_nan (Double.lit 1.0 * Double.calculateDrainMultiplier level * dt)%dbl
  = false /\
  Double.is_nan (Double.lit 6 * Double.calculateRechargeMultiplier level * dt)%dbl
  = false /\
  Double.is_nan (Double.lit 8 * Double.calculateRechargeMultiplier level * dt)%dbl
  = false.
Proof.
  unfold Double.tick_is_numeric. rewrite !andb_true_iff, !negb_true_iff. tauto.
Qed.

Lemma double_needs_in_range_finite (needs : Double.NeedsVector.t) :
  Double.needs_in_range needs -> Double.needs_finite needs.
Proof.
  intros (Hh & Ht & He & Hf).
  repeat split; apply double_in_range_finite; assumption.
Qed.

Lemma double_applyDrain_in_range (needs : Double.NeedsVector.t)
  (level dt : Double.number) :
  Double.needs_finite needs ->
  Double.is_nan (Double.lit 1.0 * Double.calculateDrainMultiplier level * dt)%dbl
  = false ->
  Double.needs_in_range (Double.applyDrain needs level dt).
Proof.
  intros (Hh & Ht & He & Hf) Hd.
  unfold Double.needs_in_range, Double.applyDrain.
  cbn [Double.NeedsVector.hunger Double.NeedsVector.thirst
       Double.NeedsVector.energy Double.NeedsVector.fun_ Double.BASE_DRAIN].
  repeat match goal with |- _ /\ _ => split end;
    apply double_clamp_in_range, double_sub_finite_not_nan; assumption.
Qed.

Lemma double_applyRecharge_in_range (needs : Double.NeedsVector.t)
  (zone : option string) (level dt : Double.number) :
  Double.needs_in_range needs ->
  Double.is_nan (Double.lit 6 * Double.calculateRechargeMultiplier level * dt)%dbl
  = false ->
  Double.is_nan (Double.lit 8 * Double.calculateRechargeMultiplier level * dt)%dbl
  = false ->
  Double.needs_in_range (Double.applyRecharge needs zone level dt).
Proof.
  intros (Hh & Ht & He & Hf) H6 H8. unfold Double.applyRecharge.
  destruct (zone_is zone "lake"), (zone_is zone "field"),
    (zone_is zone "barn"), (zone_is zone "play");
    unfold Double.needs_in_range;
    cbn [Double.NeedsVector.hunger Double.NeedsVector.thirst
         Double.NeedsVector.energy Double.NeedsVector.fun_
         Double.NeedsVector.set_hunger Double.NeedsVector.set_thirst
         Double.NeedsVector.set_energy Double.NeedsVector.set_fun];
    repeat match goal with |- _ /\ _ => split end;
    first [ assumption
          | apply double_clamp_in_range, double_add_finite_not_nan;
            [apply double_in_range_finite; assumption | assumption] ].
Qed.

Lemma double_updateNeeds_in_range (needs : Double.NeedsVector.t)
  (zone : option string) (level dt : Double.number) :
  Double.needs_finite needs ->
  Double.tick_is_numeric level dt = true ->
  Double.needs_in_range (Double.updateNeeds needs zone level dt).
Proof.
  intros Hfin Hnum.
  destruct (tick_is_numeric_spec level dt Hnum) as (Hd & H6 & H8).
  unfold Double.updateNeeds.
  apply double_applyRecharge_in_range; try assumption.
  apply double_applyDrain_in_range; assumption.
Qed.

(** C1 (as the code has it).  When the four fields of the input are in
    [0, 100], then for every zone (also no zone), every level and every
    dt >= 0 for which the amounts of the tick are numbers (the drain
    1.0 * drainMultiplier(level) * dt and the recharges
    6 * rechargeMultiplier(level) * dt and 8 * rechargeMultiplier(level)
    * dt are not NaN), the results of applyDrain, of applyRecharge and of
    updateNeeds have their four fields in [0, 100]. *)
Theorem double_needs_stay_in_range (needs : Double.NeedsVector.t)
  (zone : option string) (level dt : Double.number) :
  Double.needs_in_range needs ->
  Double.leb (Double.lit 0) dt = true ->
  Double.tick_is_numeric level dt = true ->
  Double.needs_in_range (Double.applyDrain needs level dt) /\
  Double.needs_in_range (Double.applyRecharge needs zone level dt) /\
  Double.needs_in_range (Double.updateNeeds needs zone level dt).
Proof.
  intros Hin _ Hnum.
  pose proof (double_needs_in_range_finite needs Hin) as Hfin.
  destruct (tick_is_numeric_spec level dt Hnum) as (Hd & H6 & H8).
  split; [| split].
  - apply double_applyDrain_in_range; assumption.
  - apply double_applyRecharge_in_range; assumption.
  - apply double_updateNeeds_in_range; assumption.
Qed.

Lemma double_needs_stay_in_range_witness :
  let needs := Double.NeedsVector.mk (Double.lit 0) (Double.lit 100)
                 (Double.lit 50) (Double.lit 99.5) in
  Double.needs_in_range needs /\
  Double.leb (Double.lit 0) (Double.lit 0.1) = true /\
  Double.tick_is_numeric (Double.lit 3) (Double.lit 0.1) = true /\
  Double.needs_in_range (Double.applyDrain needs (Double.lit 3) (Double.lit 0.1)) /\
  Double.needs_in_range
    (Double.applyRecharge needs (Some "play") (Double.lit 3) (Double.lit 0.1)) /\
  Double.needs_in_range
    (Double.updateNeeds needs (Some "play") (Double.lit 3) (Double.lit 0.1)).
Proof.
  intros needs.
  assert (Hin : Double.needs_in_range needs)
    by (repeat split; vm_compute; reflexivity).
  assert (Hdt : Double.leb (Double.lit 0) (Double.lit 0.1) = true)
    by (vm_compute; reflexivity).
  assert (Hnum : Double.tick_is_numeric (Double.lit 3) (Double.lit 0.1) = true)
    by (vm_compute; reflexivity).
  split; [exact Hin |]. split; [exact Hdt |]. split; [exact Hnum |].
  exact (double_needs_stay_in_range needs (Some "play") (Double.lit 3)
           (Double.lit 0.1) Hin Hdt Hnum).
Defined.

(** C1 as stated fails at level 1e308 with dt = 0 in the lake: 6 times the
    recharge multiplier overflows to Infinity, Infinity * 0 is NaN, and
    [Math.min] and [Math.max] hand the NaN on, so that thirst is NaN
    after applyRecharge and after updateNeeds. *)
Lemma double_recharge_nan :
  let needs := Double.NeedsVector.mk (Double.lit 50) (Double.lit 50)
                 (Double.lit 50) (Double.lit 50) in
  let level := Double.lit 1e308 in
  let dt := Double.lit 0 in
  Double.needs_in_range needs /\
  Double.leb (Double.lit 0) dt = true /\
  Double.mul (Double.lit 6) (Double.calculateRechargeMultiplier level)
  = S754_infinity false /\
  Double.NeedsVector.thirst (Double.applyRecharge needs (Some "lake") level dt)
  = Double.nan /\
  ~ Double.needs_in_range (Double.applyRecharge needs (Some "lake") level dt) /\
  ~ Double.needs_in_range (Double.updateNeeds needs (Some "lake") level dt).
Proof.
  cbv zeta.
  split; [repeat split; vm_compute; reflexivity |].
  split; [vm_compute; reflexivity |].
  split; [vm_compute; reflexivity |].
  split; [vm_compute; reflexivity |].
  split; intros (_ & [H _] & _); vm_compute in H; discriminate H.
Qed.

(** At the levels of a game the amounts are numbers: for every integer
    level from 1 to 1000, with dt = 0 as with a tick of 100 ms. *)
Example ordinary_ticks_are_numeric :
  forallb (fun n => Double.tick_is_numeric (Double.of_nat n) (Double.lit 0)
                    && Double.tick_is_numeric (Double.of_nat n) (Double.lit 0.1))
    (seq 1 1000) = true.
Proof. vm_compute. reflexivity. Qed.

(** X20.  The range [0, 100] is an invariant of every run in double
    arithmetic: when the amounts of each tick are numbers, the needs after
    the run are in range if the run starts in range, and also if it
    starts on finite needs out of range and has at least one tick,
    whatever the zones and the signs of the time deltas. *)
Theorem double_run_in_range (level : Double.number)
  (ticks : list (option string * Double.number))
  (needs : Double.NeedsVector.t) :
  Forall (fun t => Double.tick_is_numeric level (snd t) = true) ticks ->
  Double.needs_in_range needs \/ (ticks <> [] /\ Double.needs_finite needs) ->
  Double.needs_in_range (Double.run_ticks level ticks needs).
Proof.
  intros Hnum.
  assert (Hkeep : forall n, Double.needs_in_range n ->
                    Double.needs_in_range (Double.run_ticks level ticks n)).
  { induction Hnum as [| [zone dt] rest Ht _ IH]; intros n Hn; [exact Hn |].
    cbn [Double.run_ticks]. apply IH, double_updateNeeds_in_range;
      [apply double_needs_in_range_finite, Hn | exact Ht]. }
  intros [Hin | [Hne Hfin]]; [apply Hkeep, Hin |].
  destruct Hnum as [| [zone dt] rest Ht Hrest];
    [contradiction Hne; reflexivity |].
  cbn [Double.run_ticks].
  assert (Hkeep' : forall n, Double.needs_in_range n ->
                     Double.needs_in_range (Double.run_ticks level rest n)).
  { clear - Hrest. induction Hrest as [| [z d] r Ht _ IH]; intros n Hn;
      [exact Hn |].
    cbn [Double.run_ticks]. apply IH, double_updateNeeds_in_range;
      [apply double_needs_in_range_finite, Hn | exact Ht]. }
  apply Hkeep', double_updateNeeds_in_range; assumption.
Qed.

Lemma double_run_in_range_witness :
  let level := Double.lit 2 in
  let ticks := [(Some "lake", Double.lit 0.5); (None, Double.lit (-3));
                (Some "barn", Double.lit 200)] in
  let needs := Double.NeedsVector.mk (Double.lit (-40)) (Double.lit 250)
                 (Double.lit 0) (Double.lit 100) in
  Forall (fun t => Double.tick_is_numeric level (snd t) = true) ticks /\
  ticks <> [] /\ Double.needs_finite needs /\
  Double.needs_in_range (Double.run_ticks level ticks needs).
Proof.
  intros level ticks needs.
  assert (Hnum : Forall (fun t => Double.tick_is_numeric level (snd t) = true)
                   ticks)
    by (repeat constructor; vm_compute; reflexivity).
  assert (Hne : ticks <> []) by discriminate.
  assert (Hfin : Double.needs_finite needs) by (repeat split).
  split; [exact Hnum |]. split; [exact Hne |]. split; [exact Hfin |].
  apply (double_run_in_range level ticks needs Hnum).
  right. split; assumption.
Defined.

(** X24.  [clamp] in double arithmetic: with bounds in order, every
    number that is not NaN is clamped into the bounds, infinities
    included, and a value strictly between the bounds comes back as it
    is; a NaN comes back as NaN, whatever the bounds. *)
Theorem double_clamp_range (v lo hi : Double.number) :
  Double.leb lo hi = true ->
  (Double.is_nan v = false ->
   Double.leb lo (Double.clamp v lo hi) = true /\
   Double.leb (Double.clamp v lo hi) hi = true) /\
  (Double.ltb lo v = true -> Double.ltb v hi = true ->
   Double.clamp v lo hi = v) /\
  Double.clamp Double.nan lo hi = Double.nan.
Proof.
  intros Hb. split; [| split].
  - intros Hv. apply double_clamp_between; assumption.
  - apply double_clamp_strictly_inside.
  - apply double_clamp_nan.
Qed.

Lemma double_clamp_range_witness :
  Double.leb (Double.lit 0) (Double.lit 100) = true /\
  Double.clamp (S754_infinity false) (Double.lit 0) (Double.lit 100)
  = Double.lit 100 /\
  Double.clamp (S754_infinity true) (Double.lit 0) (Double.lit 100)
  = Double.lit 0 /\
  Double.clamp (Double.lit 49.9) (Double.lit 0) (Double.lit 100)
  = Double.lit 49.9.
Proof.
  assert (Hb : Double.leb (Double.lit 0) (Double.lit 100) = true)
    by (vm_compute; reflexivity).
  destruct (double_clamp_range (Double.lit 49.9) (Double.lit 0)
              (Double.lit 100) Hb) as (_ & Hinside & _).
  split; [exact Hb |].
  split; [vm_compute; reflexivity |].
  split; [vm_compute; reflexivity |].
  apply Hinside; vm_compute; reflexivity.
Defined.

(* ================================================================= *)
(** ** The net change and the combined step, in double arithmetic *)

Lemma double_get_need_name (k : Need) (n : Double.NeedsVector.t) :
  Double.NeedsVector.get (need_name k) n = Some (Double.need_field k n).
Proof. destruct k; reflexivity. Qed.

Lemma double_base_drain (k : Need) :
  Double.need_field k Double.BASE_DRAIN = Double.lit 1.0.
Proof. destruct k; reflexivity. Qed.

Lemma double_applyDrain_field (k : Need) (needs : Double.NeedsVector.t)
  (level dt : Double.number) :
  Double.need_field k (Double.applyDrain needs level dt)
  = Double.clamp
      (Double.need_field k needs
       - Double.need_field k Double.BASE_DRAIN
         * Double.calculateDrainMultiplier level * dt)%dbl
      (Double.lit 0) (Double.lit 100).
Proof. destruct k; reflexivity. Qed.

Lemma double_applyRecharge_unrecognized (needs : Double.NeedsVector.t)
  (tag : string) (level dt : Double.number) :
  tag <> "lake" -> tag <> "field" -> tag <> "barn" -> tag <> "play" ->
  Double.applyRecharge needs (Some tag) level dt = needs.
Proof.
  intros Hl Hf Hb Hp. unfold Double.applyRecharge.
  rewrite (zone_is_unrecognized tag "lake" Hl),
    (zone_is_unrecognized tag "field" Hf),
    (zone_is_unrecognized tag "barn" Hb),
    (zone_is_unrecognized tag "play" Hp).
  reflexivity.
Qed.

(** What applyRecharge does to one need, in double arithmetic. *)
Lemma double_applyRecharge_field (k : Need) (needs : Double.NeedsVector.t)
  (zone : option string) (level dt : Double.number) :
  (zone_feeds zone k = false /\
   Double.need_field k (Double.applyRecharge needs zone level dt)
   = Double.need_field k needs) \/
  (zone_feeds zone k = true /\
   exists s rate,
     zone = Some s /\
     prop s Double.BASE_RECHARGE = Some [(need_name k, rate)] /\
     Double.need_field k (Double.applyRecharge needs zone level dt)
     = Double.clamp
         (Double.need_field k needs
          + rate * Double.calculateRechargeMultiplier level * dt)%dbl
         (Double.lit 0) (Double.lit 100)).
Proof.
  need_zone_cases k zone;
    try (left; split; reflexivity);
    try (right; split; [reflexivity |]; do 2 eexists;
         split; [reflexivity |]; split; reflexivity).
  left. split; [apply zone_feeds_unrecognized; assumption |].
  rewrite double_applyRecharge_unrecognized by assumption. reflexivity.
Qed.

(** What calculateNetNeedChange returns for one of the four needs. *)
Lemma double_net_change_shape (k : Need) (zone : option string)
  (level dt : Double.number) :
  (zone_feeds zone k = false /\
   Double.calculateNetNeedChange (need_name k) zone level dt
   = (- Double.need_field k Double.BASE_DRAIN
      * Double.calculateDrainMultiplier level * dt)%dbl) \/
  (zone_feeds zone k = true /\
   exists s rate,
     zone = Some s /\
     prop s Double.BASE_RECHARGE = Some [(need_name k, rate)] /\
     Double.calculateNetNeedChange (need_name k) zone level dt
     = (- Double.need_field k Double.BASE_DRAIN
        * Double.calculateDrainMultiplier level * dt
        + rate * Double.calculateRechargeMultiplier level * dt)%dbl).
Proof.
  need_zone_cases k zone;
    try (left; split; reflexivity);
    try (right; split; [reflexivity |]; do 2 eexists;
         split; [reflexivity |]; split; reflexivity).
  left. split; [apply zone_feeds_unrecognized; assumption |].
  unfold Double.calculateNetNeedChange.
  rewrite double_get_need_name.
  destruct s as [| a s'] eqn:Es; [reflexivity |].
  cbn [truthy]. rewrite <- Es in *.
  rewrite (zoneToNeed_unrecognized s Hl Hf Hb Hp). reflexivity.
Qed.

(** The drain that calculateNetNeedChange subtracts is the negation of the
    amount that applyDrain subtracts. *)
Lemma double_net_drain (b m dt : Double.number) :
  (- b * m * dt)%dbl = (- (b * m * dt))%dbl.
Proof. rewrite !double_mul_neg_l. reflexivity. Qed.

(** C4 (as the code has it).  For every need name, zone, level, dt and
    input NeedsVector, with drain = 1.0 * drainMultiplier(level) * dt and,
    in the zone that feeds the need, recharge = baseRate *
    rechargeMultiplier(level) * dt: when the drained value
    needs[needType] - drain lies strictly between 0 and 100 (and in the
    feeding zone the recharged value (needs[needType] - drain) + recharge
    as well), calculateNetNeedChange is (-drain) resp. (-drain) + recharge
    and updateNeeds(...)[needType] is needs[needType] - drain resp.
    (needs[needType] - drain) + recharge, with the same doubles drain and
    recharge.  So updateNeeds(...)[needType] is exactly
    needs[needType] + calculateNetNeedChange(...) where the zone does not
    feed the need; in the feeding zone, and for the difference
    updateNeeds(...)[needType] - needs[needType], the two sides are
    different roundings of one real number. *)
Theorem double_net_change_matches_step (k : Need)
  (needs : Double.NeedsVector.t) (zone : option string)
  (level dt : Double.number) :
  let v := Double.need_field k needs in
  let drain := (Double.need_field k Double.BASE_DRAIN
                * Double.calculateDrainMultiplier level * dt)%dbl in
  let net := Double.calculateNetNeedChange (need_name k) zone level dt in
  let after := Double.need_field k (Double.updateNeeds needs zone level dt) in
  Double.strictly_inside (v - drain)%dbl ->
  (zone_feeds zone k = false ->
   net = (- drain)%dbl /\ after = (v - drain)%dbl /\ after = (v + net)%dbl) /\
  (zone_feeds zone k = true ->
   exists s rate,
     zone = Some s /\
     prop s Double.BASE_RECHARGE = Some [(need_name k, rate)] /\
     let recharge :=
       (rate * Double.calculateRechargeMultiplier level * dt)%dbl in
     (Double.strictly_inside (v - drain + recharge)%dbl ->
      net = (- drain + recharge)%dbl /\
      after = (v - drain + recharge)%dbl)).
Proof.
  intros v drain net after [Hlo Hhi].
  assert (Edrain : Double.need_field k (Double.applyDrain needs level dt)
                   = (v - drain)%dbl).
  { rewrite double_applyDrain_field.
    apply double_clamp_strictly_inside; assumption. }
  subst net after. unfold Double.updateNeeds.
  destruct (double_net_change_shape k zone level dt)
    as [(Hf & Enet) | (Hf & s & rate & Hz & Hp & Enet)];
    rewrite Hf; (split; [intros H | intros H]); try discriminate H.
  - destruct (double_applyRecharge_field k (Double.applyDrain needs level dt)
                zone level dt)
      as [(_ & Eafter) | (Hf' & _)]; [| congruence].
    rewrite Enet, Eafter, Edrain, double_net_drain.
    repeat split. apply double_sub_add_neg.
  - destruct (double_applyRecharge_field k (Double.applyDrain needs level dt)
                zone level dt)
      as [(Hf' & _) | (_ & s' & rate' & Hz' & Hp' & Eafter)]; [congruence |].
    exists s, rate. split; [exact Hz |]. split; [exact Hp |].
    cbv zeta. intros [Hlo' Hhi'].
    assert (Es : s' = s) by congruence. subst s'.
    assert (Er : rate' = rate) by congruence. subst rate'.
    rewrite Enet, Eafter, Edrain, double_net_drain. split; [reflexivity |].
    apply double_clamp_strictly_inside; assumption.
Qed.

Lemma double_net_change_matches_step_witness :
  let needs := Double.NeedsVector.mk (Double.lit 50) (Double.lit 50)
                 (Double.lit 50) (Double.lit 50) in
  let level := Double.lit 2 in
  let dt := Double.lit 0.5 in
  let drain := (Double.lit 1.0 * Double.calculateDrainMultiplier level * dt)%dbl in
  let recharge := (Double.lit 6 * Double.calculateRechargeMultiplier level * dt)%dbl in
  Double.strictly_inside (Double.lit 50 - drain)%dbl /\
  Double.strictly_inside (Double.lit 50 - drain + recharge)%dbl /\
  Double.need_field Hunger (Double.updateNeeds needs (Some "lake") level dt)
  = (Double.lit 50
     + Double.calculateNetNeedChange "hunger" (Some "lake") level dt)%dbl /\
  Double.need_field Hunger (Double.updateNeeds needs (Some "lake") level dt)
  = Double.lit 49.1 /\
  Double.calculateNetNeedChange "thirst" (Some "lake") level dt
  = (- drain + recharge)%dbl /\
  Double.need_field Thirst (Double.updateNeeds needs (Some "lake") level dt)
  = (Double.lit 50 - drain + recharge)%dbl.
Proof.
  intros needs level dt drain recharge.
  assert (Hin : Double.strictly_inside (Double.lit 50 - drain)%dbl)
    by (split; vm_compute; reflexivity).
  assert (Hin' : Double.strictly_inside (Double.lit 50 - drain + recharge)%dbl)
    by (split; vm_compute; reflexivity).
  split; [exact Hin |]. split; [exact Hin' |].
  destruct (double_net_change_matches_step Hunger needs (Some "lake") level dt
              Hin) as (Hother & _).
  destruct (Hother eq_refl) as (_ & Hafter & Hsum).
  split; [exact Hsum |].
  split; [rewrite Hafter; vm_compute; reflexivity |].
  destruct (double_net_change_matches_step Thirst needs (Some "lake") level dt
              Hin) as (_ & Hfed).
  destruct (Hfed eq_refl) as (s & rate & Hs & Hrate & Hstep).
  injection Hs as <-. injection Hrate as <-.
  exact (Hstep Hin').
Defined.

(** C4 as stated fails in double arithmetic, with no clamp at work: for
    thirst in the lake at level 2 with dt = 0.5 the net change is
    3.0000000000000004 and the step minus the input is 3; with no zone at
    level 1 and dt = 0.1 they are -0.1 and -0.10000000000000142. *)
Lemma double_net_change_differs :
  let needs := Double.NeedsVector.mk (Double.lit 50) (Double.lit 50)
                 (Double.lit 50) (Double.lit 50) in
  let drained := Double.applyDrain needs (Double.lit 2) (Double.lit 0.5) in
  let after := Double.updateNeeds needs (Some "lake") (Double.lit 2)
                 (Double.lit 0.5) in
  let net := Double.calculateNetNeedChange "thirst" (Some "lake") (Double.lit 2)
               (Double.lit 0.5) in
  Double.NeedsVector.thirst drained = Double.lit 49.1 /\
  Double.NeedsVector.thirst after = Double.lit 53 /\
  net = Double.lit 3.0000000000000004 /\
  (Double.NeedsVector.thirst after - Double.lit 50)%dbl = Double.lit 3 /\
  Double.eqb net (Double.NeedsVector.thirst after - Double.lit 50)%dbl = false /\
  Double.calculateNetNeedChange "hunger" None (Double.lit 1) (Double.lit 0.1)
  = Double.lit (-0.1) /\
  (Double.NeedsVector.hunger
     (Double.updateNeeds needs None (Double.lit 1) (Double.lit 0.1))
   - Double.lit 50)%dbl
  = Double.lit (-0.10000000000000142).
Proof. vm_compute. repeat split. Qed.

(** X9.  For a name that is not one of the four need names
    calculateNetNeedChange returns NaN, whatever the zone, the level and
    dt.  The converse fails: for thirst in the lake at level 1e308 with
    dt = 10 both products overflow and the result is NaN as well. *)
Theorem double_net_change_unknown_need (needType : string)
  (zone : option string) (level dt : Double.number) :
  needType <> "hunger" -> needType <> "thirst" ->
  needType <> "energy" -> needType <> "fun" ->
  Double.calculateNetNeedChange needType zone level dt = Double.nan.
Proof.
  intros Hh Ht He Hf. unfold Double.calculateNetNeedChange.
  assert (Hget : Double.NeedsVector.get needType Double.BASE_DRAIN = None).
  { unfold Double.NeedsVector.get.
    apply String.eqb_neq in Hh, Ht, He, Hf. rewrite Hh, Ht, He, Hf.
    reflexivity. }
  rewrite Hget. cbv zeta.
  assert (Hchange : (- Double.nan * Double.calculateDrainMultiplier level * dt)%dbl
                    = Double.nan) by reflexivity.
  rewrite Hchange.
  destruct (truthy zone) as [z |]; [| reflexivity].
  destruct (prop z zoneToNeed) as [mapped |]; [| reflexivity].
  destruct (String.eqb mapped needType); [| reflexivity].
  destruct (prop z Double.BASE_RECHARGE) as [[| [key rate] rest] |];
    reflexivity.
Qed.

Lemma double_net_change_unknown_need_witness :
  Double.calculateNetNeedChange "mood" (Some "lake") (Double.lit 1)
    (Double.lit 0.1) = Double.nan /\
  Double.calculateNetNeedChange "toString" None (Double.lit 1)
    (Double.lit 0.1) = Double.nan.
Proof.
  split; apply double_net_change_unknown_need; discriminate.
Defined.

Example double_net_change_overflow :
  Double.calculateNetNeedChange "thirst" (Some "lake") (Double.lit 1e308)
    (Double.lit 10) = Double.nan.
Proof. vm_compute. reflexivity. Qed.
